(** * ziploy-cli: chunked transfer protocol

    A shallow embedding of [ziploy.py] (packaging, chunk splitting,
    concurrent chunk upload, remote unpack over ssh, finalize, cleanup)
    and the properties of its specification that the code decides.

    Conventions of the embedding:
    - a Python [str] and a file name are a [string] (a sequence of bytes,
      compared code point by code point as Python compares them);
    - the content of a file is a [list byte];
    - the staging directory [__to_ziploy] is an optional finite map from
      file names to contents ([None]: the directory does not exist);
    - everything the program does to the outside world (the archiver, the
      HTTP requests, the ssh subprocess) is answered by an environment
      [Env] and recorded in a trace of events;
    - [sys.exit] and uncaught exceptions are outcomes of a small
      state-and-error monad. *)

From Stdlib Require Import ZArith List Lia Bool.
From Stdlib Require Import Strings.String Strings.Ascii Strings.Byte.
From Stdlib Require Import Numbers.DecimalString Numbers.DecimalNat.
From stdpp Require Import base option list sorting gmap strings.

Local Open Scope string_scope.
Set Warnings "-register-all".

(** ** Python strings *)

Module PyStr.

(** [s1 <= s2] on Python strings: lexicographic on code points. *)
Definition le (s1 s2 : string) : Prop := String.leb s1 s2 = true.

Definition lt (s1 s2 : string) : Prop := String.ltb s1 s2 = true.

#[global] Instance le_dec s1 s2 : Decision (le s1 s2).
Proof. unfold le. apply _. Defined.

(** [s.startswith(p)] *)
Definition startswith (p s : string) : bool := String.prefix p s.

(** [s.rstrip('/')]: drop every trailing slash. *)
Fixpoint rstrip_slash (s : string) : string :=
  match s with
  | EmptyString => EmptyString
  | String c s' =>
      match rstrip_slash s' with
      | EmptyString => if Ascii.eqb c "/" then EmptyString else String c EmptyString
      | r => String c r
      end
  end.

(** [s.zfill(w)] for a string of digits: zeros on the left up to width [w]. *)
Fixpoint zeros (n : nat) : string :=
  match n with
  | O => EmptyString
  | S n' => String "0" (zeros n')
  end.

Definition zfill (w : nat) (s : string) : string :=
  zeros (w - String.length s) ++ s.

(** [str(n)] for a natural number: decimal digits, no leading zero. *)
Definition decimal (n : nat) : string :=
  NilEmpty.string_of_uint (Nat.to_uint n).

(** [f"{n:03d}"]: decimal digits of [n], at least three of them. *)
Definition format_03d (n : nat) : string := zfill 3 (decimal n).

(** Reading a string of digits back. *)
Definition parse_decimal (s : string) : option nat :=
  Nat.of_uint <$> NilEmpty.uint_of_string s.

End PyStr.

(** The functions of Python's library whose result depends on Unicode
    tables or on the version of the library; the program is modelled over
    any implementation of them. *)
Class PyLib := {
  py_upper : string -> string;            (* str.upper *)
  py_strip : string -> string;            (* str.strip *)
  py_isdigit : string -> bool;            (* str.isdigit *)
  py_int : string -> Z;                   (* int(s), on a string of digits *)
  urlparse_scheme : string -> string;     (* urlparse(url).scheme *)
}.

(** [sorted(l)] on a list of strings. *)
Definition sorted (l : list string) : list string := merge_sort PyStr.le l.

(** ** Data *)

Abbreviation bytes := (list byte).

(** A JSON value as [resp.json()] returns it; Python's [None] is [JNull].
    A dict is given by its items (its keys are distinct). *)
Inductive json : Type :=
  | JNull
  | JBool (b : bool)
  | JNum (literal : string)
  | JStr (s : string)
  | JList (l : list json)
  | JDict (items : list (string * json)).

(** [k in d] and [d[k]] on the items of a dict. *)
Fixpoint dict_get (k : string) (items : list (string * json)) : option json :=
  match items with
  | [] => None
  | (k', v) :: items' => if String.eqb k' k then Some v else dict_get k items'
  end.

(** A Python exception (a subclass of [Exception]): its class and text. *)
Record Exn := mkExn { exn_class : string; exn_text : string }.

(** A field of a multipart form ([aiohttp.FormData.add_field]). *)
Inductive FormField :=
  | TextField (name value : string)
  | FileField (name : string) (data : bytes) (filename content_type : string).

(** The POST of one chunk: [session.post(api_endpoint, data=form, ssl=...)]. *)
Record UploadRequest := mkUpload {
  up_endpoint : string;
  up_form : list FormField;
  up_ssl : bool;
}.

(** The body of the finalize request. *)
Record FinalizeBody := mkBody {
  fin_id : string;
  fin_package : json;
  fin_destination : json;
  fin_method : string;
}.

(** [session.post(finalize_endpoint, json=body, ssl=...)]. *)
Record FinalizeRequest := mkFinalize {
  fz_endpoint : string;
  fz_body : FinalizeBody;
  fz_ssl : bool;
}.

(** What a POST comes to: [session.post] raises, or a response arrives
    with a status and a body that [resp.json()] parses or rejects. *)
Inductive HttpOutcome :=
  | TransportError (e : Exn)
  | Response (status : Z) (body : Exn + json).

(** What [subprocess.run] comes to: the program cannot be started, or it
    runs and returns an exit status with its captured output. *)
Inductive ProcOutcome :=
  | SpawnError (e : Exn)
  | Completed (returncode : Z) (stdout stderr : string).

(** The archiver: as a process, and the archive it left at
    [__to_ziploy/_ziploy.zip], if any. *)
Record ZipOutcome := mkZip {
  zip_proc : ProcOutcome;
  zip_archive : option bytes;
}.

(** The credentials [parse_ssh_config] returns. *)
Record SshConfig := mkSshConfig {
  ssh_user : string;
  ssh_host : string;
  ssh_port : nat;
  ssh_key : string;
}.

(** [ssh_params]: a dict read with [.get("command")] and [.get("config")]. *)
Record SshParams := mkSshParams {
  sp_command : option string;
  sp_config : option SshConfig;
}.

(** The parsed command line ([argparse.Namespace]). *)
Record Args := mkArgs {
  ziployMethod : string;
  ziployId : string;
  ziployRemoteHost : string;
  ssh_config : list string;
  verbose : bool;
}.

(** What the run does to the outside world, in the order it happens. An
    [EvUpload] stands for one chunk's POST, from request to resolution. *)
Inductive Event :=
  | EvZip (argv : list string)
  | EvUpload (req : UploadRequest)
  | EvSsh (argv : list string)
  | EvFinalize (req : FinalizeRequest).

(** The calls to the [logging] module. *)
Inductive Level := DEBUG | INFO | ERROR.

Inductive LogRecord :=
  | LogValidated
  | LogGenerating
  | LogZipError (returncode : Z)
  | LogPackageCreated
  | LogSplitting
  | LogCreatedChunk (chunk_filename : string)
  | LogSplitError (e : Exn)
  | LogDeletedZip (zip_filename : string)
  | LogSplitInto (num_chunks : nat)
  | LogUploadError (e : Exn)
  | LogUploaded1 (message : json)
  | LogUploaded2 (resp : json)
  | LogMethodIsSsh
  | LogSshOk (stdout : string)
  | LogSshFailed (stderr : string)
  | LogDeployInitiated (final_response : json)
  | LogCleanup (output_folder : string)
  | LogTotalTime.

Definition level (r : LogRecord) : Level :=
  match r with
  | LogCreatedChunk _ => DEBUG
  | LogZipError _ | LogSplitError _ | LogUploadError _ | LogSshFailed _ => ERROR
  | _ => INFO
  end.

(** The order in which concurrent upload tasks resolve is the event
    loop's and the network's: any permutation of the tasks. *)
Record Scheduler := mkScheduler {
  sched :> list Event -> list Event;
  sched_perm : forall l, sched l ≡ₚ l;
}.

(** The environment of a run. *)
Record Env := mkEnv {
  ziployignore : option (list string);       (* lines of .ziployignore *)
  zip_run : list string -> ZipOutcome;
  http_upload : UploadRequest -> HttpOutcome;
  http_finalize : FinalizeRequest -> HttpOutcome;
  ssh_run : list string -> ProcOutcome;
  completion : Scheduler;
}.

(** The state a run threads through. *)
Record World := mkWorld {
  staging : option (gmap string bytes);   (* the directory __to_ziploy *)
  trace : list Event;
  log : list LogRecord;
}.

(** ** The monad of the program: state, [sys.exit] and exceptions *)

Inductive Outcome (A : Type) :=
  | Ok (a : A)
  | Exit (code : Z)      (* SystemExit(code) *)
  | Raise (e : Exn).     (* an exception nothing catches *)
Arguments Ok {A} a.
Arguments Exit {A} code.
Arguments Raise {A} e.

Definition M (A : Type) : Type := World -> Outcome A * World.

#[global] Instance M_ret : MRet M := fun A a w => (Ok a, w).

#[global] Instance M_bind : MBind M := fun A B f m w =>
  match m w with
  | (Ok a, w') => f a w'
  | (Exit c, w') => (Exit c, w')
  | (Raise e, w') => (Raise e, w')
  end.

Definition sys_exit {A} (code : Z) : M A := fun w => (Exit code, w).

Definition raise {A} (e : Exn) : M A := fun w => (Raise e, w).

Definition get_staging : M (option (gmap string bytes)) :=
  fun w => (Ok (staging w), w).

Definition set_staging (d : option (gmap string bytes)) : M unit :=
  fun w => (Ok tt, mkWorld d (trace w) (log w)).

Definition emit (evs : list Event) : M unit :=
  fun w => (Ok tt, mkWorld (staging w) (trace w ++ evs) (log w)).

Definition logging (r : LogRecord) : M unit :=
  fun w => (Ok tt, mkWorld (staging w) (trace w) (log w ++ [r])).

(** [for x in xs: acc = body(acc, x)] *)
Fixpoint for_each {A B} (xs : list A) (acc : B) (body : B -> A -> M B) : M B :=
  match xs with
  | [] => mret acc
  | x :: xs' => acc' ← body acc x; for_each xs' acc' body
  end.

(** The exit status of the process. *)
Definition exit_status {A} (o : Outcome A) : Z :=
  match o with
  | Ok _ => 0
  | Exit code => code
  | Raise _ => 1
  end.

(** ** The program *)

Definition FileNotFoundError (path : string) : Exn :=
  mkExn "FileNotFoundError" path.

Definition TypeError (text : string) : Exn := mkExn "TypeError" text.

(** What [resp.raise_for_status()] raises on a status of 400 or more (its
    text is not modelled). *)
Definition ClientResponseError (status : Z) : Exn :=
  mkExn "ClientResponseError" "".

(** [try: body except Exception as e: handler(e)]; a [SystemExit] is not
    an [Exception] and passes through. *)
Definition try_except {A} (body : M A) (handler : Exn -> M A) : M A :=
  fun w =>
    match body w with
    | (Raise e, w') => handler e w'
    | r => r
    end.

(** [open(path, 'wb')] and [write], [open(path, 'rb')] and [read],
    [os.remove], for a path in the staging directory. *)
Definition write_file (name : string) (data : bytes) : M unit :=
  d ← get_staging;
  match d with
  | Some files => set_staging (Some (<[name := data]> files))
  | None => raise (FileNotFoundError name)
  end.

Definition read_file (name : string) : M bytes :=
  d ← get_staging;
  match d ≫= (.!! name) with
  | Some data => mret data
  | None => raise (FileNotFoundError name)
  end.

Definition remove_file (name : string) : M unit :=
  d ← get_staging;
  match d with
  | Some files =>
      if decide (is_Some (files !! name))
      then set_staging (Some (delete name files))
      else raise (FileNotFoundError name)
  | None => raise (FileNotFoundError name)
  end.

(** [os.listdir(output_folder)], in the order the system gives. *)
Definition listdir : M (list string) :=
  d ← get_staging;
  match d with
  | Some files => mret (map_to_list files).*1
  | None => raise (FileNotFoundError "__to_ziploy")
  end.

Definition output_folder : string := "__to_ziploy".

Definition zip_name : string := "_ziploy.zip".

(** [os.path.join(output_folder, name)] *)
Definition path_join (folder name : string) : string := folder ++ "/" ++ name.

Definition chunk_size : Z := 5 * 1024 * 1024.

(** The name of chunk [chunk_index] in the staging directory:
    [f"_ziploy.zip.z{chunk_index:03d}"]. *)
Definition chunk_filename (chunk_index : nat) : string :=
  "_ziploy.zip.z" ++ PyStr.format_03d chunk_index.

Definition build_api_endpoint (ziployRemoteHost : string) : string :=
  PyStr.rstrip_slash ziployRemoteHost ++ "/wp-json/ziploy/v1/update".

Definition build_finalize_endpoint (ziployRemoteHost : string) : string :=
  PyStr.rstrip_slash ziployRemoteHost ++ "/wp-json/ziploy/v1/ziploy".

Definition default_ignore_patterns : list string :=
  ["*.swp"; ".ziployignore"; "*.git*"; "ziploy*"; "node_modules/*";
   "__to-ziploy"; "__to-ziploy/"; "_ziploy.zip"; "venv"; "venv/"].

(** The loop of [generate_chunks]:
    [for chunk_index, chunk in enumerate(iter(lambda: f.read(size), b''))],
    on the bytes [f] the file still holds. [fuel] bounds the number of
    reads; any fuel above [length f] gives the same chunks ([chunks_fuel]),
    and they add up to the whole file ([chunks_concat]). *)
Fixpoint split_loop (size fuel : nat) (f : bytes) (chunk_index : nat) : M unit :=
  match fuel with
  | O => mret tt
  | S fuel' =>
      match take size f with
      | [] => mret tt
      | chunk =>
          write_file (chunk_filename chunk_index) chunk;;
          logging (LogCreatedChunk (path_join output_folder (chunk_filename chunk_index)));;
          split_loop size fuel' (drop size f) (S chunk_index)
      end
  end.

Section Program.
Context `{PyLib} (env : Env).

Definition load_ignore_patterns : list string :=
  (default_ignore_patterns ++
   match ziployignore env with
   | Some lines =>
       List.filter (fun line => negb (String.eqb line "") && negb (PyStr.startswith "#" line))
                   (py_strip <$> lines)
   | None => []
   end)%list.

Definition zip_command : list string :=
  (["zip"; "-r"; path_join output_folder zip_name; "."] ++
   flat_map (fun pattern => ["-x"; pattern]) load_ignore_patterns)%list.

Definition generate_chunks : M unit :=
  logging LogGenerating;;
  (* rmtree if it exists, then makedirs *)
  set_staging (Some ∅);;
  emit [EvZip zip_command];;
  match zip_run env zip_command with
  | mkZip (SpawnError e) _ => raise e
  | mkZip (Completed returncode _ _) archive =>
      match archive with
      | Some data => write_file zip_name data
      | None => mret tt
      end;;
      if (returncode =? 0)%Z then mret tt
      else (logging (LogZipError returncode);; sys_exit 1)
  end;;
  logging LogPackageCreated;;
  logging LogSplitting;;
  try_except
    (f ← read_file zip_name;
     split_loop (Z.to_nat chunk_size) (S (length f)) f 0)
    (fun e => logging (LogSplitError e);; sys_exit 1);;
  remove_file zip_name;;
  logging (LogDeletedZip (path_join output_folder zip_name));;
  entries ← listdir;
  logging (LogSplitInto (length entries)).

Definition get_chunk_files : M (list string) :=
  entries ← listdir;
  mret (sorted (List.filter (PyStr.startswith "_ziploy.zip.z") entries)).

(** One upload task, on the staging directory [d] as it is when the
    tasks run: the request it issues, if it gets that far, and what
    [asyncio.gather] collects for it.
    [chunk] is the file's name, the basename of [chunk_path]. *)
Definition async_upload_chunk (d : option (gmap string bytes))
    (api_endpoint chunk : string) (verify_ssl : bool) (ziployId : string)
    (last_chunk : bool) : option UploadRequest * (Exn + json) :=
  match d ≫= (.!! chunk) with
  | None => (None, inl (FileNotFoundError (path_join output_folder chunk)))
  | Some file_data =>
      let form :=
        ([TextField "id" ziployId] ++
         (if last_chunk then [TextField "last" "true"] else []) ++
         [FileField "ziploy" file_data chunk "application/octet-stream"])%list in
      let req := mkUpload api_endpoint form verify_ssl in
      (Some req,
       match http_upload env req with
       | TransportError e => inl e
       | Response status body =>
           if (400 <=? status)%Z then inl (ClientResponseError status) else body
       end)
  end.

(** [await asyncio.gather] over the tasks, with [return_exceptions=True]: the tasks
    resolve in the order the scheduler picks; the results come back in
    the order of the tasks. *)
Definition gather (tasks : list (option UploadRequest * (Exn + json)))
  : M (list (Exn + json)) :=
  emit (completion env (EvUpload <$> omap fst tasks));;
  mret (snd <$> tasks).

Definition ssh_unzip (command : option string) (SSH_CONFIG : option SshConfig)
  : M unit :=
  match SSH_CONFIG, command with
  | None, _ => raise (TypeError "'NoneType' object is not subscriptable")
  | Some cfg, None => raise (TypeError "expected str, bytes or os.PathLike object, not NoneType")
  | Some cfg, Some command =>
      let ssh_command :=
        ["ssh"; "-i"; ssh_key cfg; "-p"; PyStr.decimal (ssh_port cfg);
         ssh_user cfg ++ "@" ++ ssh_host cfg; command] in
      emit [EvSsh ssh_command];;
      match ssh_run env ssh_command with
      | SpawnError e => raise e
      | Completed returncode stdout stderr =>
          if (returncode =? 0)%Z then logging (LogSshOk stdout)
          else (logging (LogSshFailed stderr);; sys_exit 1)
      end
  end.

(** The body of the loop over [responses]. *)
Definition fold_response (acc : json * json) (resp : Exn + json) : M (json * json) :=
  match resp with
  | inl e => logging (LogUploadError e);; mret acc
  | inr (JDict items) =>
      logging (LogUploaded1 (default (JStr "No message") (dict_get "message" items)));;
      match dict_get "package" items, dict_get "destination" items with
      | Some package, Some destination => mret (package, destination)
      | _, _ => mret acc
      end
  | inr resp => logging (LogUploaded2 resp);; mret acc
  end.

(** [async_upload_chunks], the step under the comment "If the method is
    SSH, call ssh_unzip before finalizing deployment":
    [if ziployMethod.upper() == "SSH" and ssh_params is not None]. *)
Definition unpack_step (ziployMethod : string) (ssh_params : option SshParams)
  : M unit :=
  if String.eqb (py_upper ziployMethod) "SSH" then
    match ssh_params with
    | Some params =>
        logging LogMethodIsSsh;;
        ssh_unzip (sp_command params) (sp_config params)
    | None => mret tt
    end
  else mret tt.

(** [async_upload_chunks], the step under the comment "Finalize
    deployment and log final response". *)
Definition finalize_step (finalize_endpoint ziployId : string)
    (package destination : json) (ziployMethod : string) (verify_ssl : bool)
  : M unit :=
  let req := mkFinalize finalize_endpoint
               (mkBody ziployId package destination ziployMethod) verify_ssl in
  emit [EvFinalize req];;
  match http_finalize env req with
  | TransportError e => raise e
  | Response status body =>
      if (400 <=? status)%Z then raise (ClientResponseError status)
      else match body with
           | inl e => raise e
           | inr final_response => logging (LogDeployInitiated final_response)
           end
  end.

Definition async_upload_chunks (ziployRemoteHost ziployId : string)
    (verify_ssl : bool) (ziployMethod : string) (ssh_params : option SshParams)
  : M unit :=
  let api_endpoint := build_api_endpoint ziployRemoteHost in
  let finalize_endpoint := build_finalize_endpoint ziployRemoteHost in
  chunk_files ← get_chunk_files;
  d ← get_staging;
  let tasks :=
    imap (fun idx chunk =>
            async_upload_chunk d api_endpoint chunk verify_ssl ziployId
              (idx =? length chunk_files - 1)%nat) chunk_files in
  responses ← gather tasks;
  '(package, destination) ← for_each responses (JNull, JNull) fold_response;
  unpack_step ziployMethod ssh_params;;
  finalize_step finalize_endpoint ziployId package destination ziployMethod verify_ssl.

Definition cleanup : M unit :=
  d ← get_staging;
  match d with
  | Some _ => set_staging None;; logging (LogCleanup output_folder)
  | None => mret tt
  end.

(** [parser.error(...)]: usage on stderr and exit status 2. *)
Definition parser_error {A} : M A := sys_exit 2.

Definition validate_args (args : Args) : M unit :=
  let scheme := urlparse_scheme (ziployRemoteHost args) in
  (if String.eqb scheme "http" || String.eqb scheme "https" then mret tt
   else parser_error);;
  logging LogValidated.

Definition parse_ssh_config (args : Args) : M SshConfig :=
  match py_strip <$> ssh_config args with
  | [] | [_] | [_; _] => parser_error
  | [ssh_user; ssh_host; ssh_key] =>
      (if String.eqb ssh_user "" then parser_error else mret tt);;
      (if String.eqb ssh_host "" then parser_error else mret tt);;
      (if String.eqb ssh_key "" then parser_error else mret tt);;
      mret (mkSshConfig ssh_user ssh_host 22 ssh_key)
  | ssh_user :: ssh_host :: ssh_port_str :: ssh_key :: _ =>
      (if py_isdigit ssh_port_str then mret tt else parser_error);;
      (if String.eqb ssh_user "" then parser_error else mret tt);;
      (if String.eqb ssh_host "" then parser_error else mret tt);;
      (if String.eqb ssh_key "" then parser_error else mret tt);;
      mret (mkSshConfig ssh_user ssh_host (Z.to_nat (py_int ssh_port_str)) ssh_key)
  end.

(** [main], from the parsed command line on ([setup_logging] only
    configures the handlers of the log). *)
Definition main (args : Args) : M unit :=
  validate_args args;;
  (if String.eqb (py_upper (ziployMethod args)) "SSH"
   then SSH_CONFIG ← parse_ssh_config args; mret (Some SSH_CONFIG)
   else mret None);;
  generate_chunks;;
  async_upload_chunks (ziployRemoteHost args) (ziployId args) false "HTTP" None;;
  cleanup;;
  logging LogTotalTime.

End Program.

(** ** What the program computes, in terms the theorems use *)

(** The chunks the loop of [generate_chunks] reads off [f]. *)
Fixpoint chunks (size fuel : nat) (f : bytes) : list bytes :=
  match fuel with
  | O => []
  | S fuel' =>
      match take size f with
      | [] => []
      | chunk => chunk :: chunks size fuel' (drop size f)
      end
  end.

Definition split (archive : bytes) : list bytes :=
  chunks (Z.to_nat chunk_size) (S (length archive)) archive.

(** The entries of a directory that holds the chunks [cs] under the names
    of the sequence numbers [start], [start + 1], ... *)
Definition chunk_entries (start : nat) (cs : list bytes) : list (string * bytes) :=
  imap (fun k chunk => (chunk_filename (start + k), chunk)) cs.

Arguments chunk_entries : simpl never.

(** The records the loop logs for them. *)
Definition created_log (start : nat) (cs : list bytes) : list LogRecord :=
  (fun e => LogCreatedChunk (path_join output_folder e.1)) <$> chunk_entries start cs.

Definition chunk_dir (cs : list bytes) : gmap string bytes :=
  list_to_map (chunk_entries 0 cs).

(** [ceil(s / c)] *)
Definition ceil_div (s c : Z) : Z := (s + c - 1) / c.

(** The number of chunks of an archive: [ceil(S / C)]. *)
Definition num_chunks (archive : bytes) : nat :=
  Z.to_nat (ceil_div (Z.of_nat (length archive)) chunk_size).

(** The content of chunk [k] in a directory. *)
Definition chunk_at (files : gmap string bytes) (k : nat) : option bytes :=
  files !! chunk_filename k.

(** The chunk files of a directory read back in sequence-number order. *)
Definition chunks_in_order (files : gmap string bytes) (n : nat) : list bytes :=
  omap (chunk_at files) (seq 0 n).

(** The requests a trace holds. *)
Definition uploads (tr : list Event) : list UploadRequest :=
  omap (fun ev => match ev with EvUpload req => Some req | _ => None end) tr.

Definition finalizes (tr : list Event) : list FinalizeRequest :=
  omap (fun ev => match ev with EvFinalize req => Some req | _ => None end) tr.

Definition ssh_calls (tr : list Event) : list (list string) :=
  omap (fun ev => match ev with EvSsh argv => Some argv | _ => None end) tr.

(** The events a run adds to the trace: those of [w'] after those of [w]. *)
Definition new_events (w w' : World) : list Event :=
  drop (length (trace w)) (trace w').

Definition new_log (w w' : World) : list LogRecord :=
  drop (length (log w)) (log w').

(** An upload request carries the [last] marker field. *)
Definition carries_last (req : UploadRequest) : bool :=
  existsb (fun field => match field with
                        | TextField name _ => String.eqb name "last"
                        | FileField _ _ _ _ => false
                        end) (up_form req).

(** The name of the chunk file an upload request sends. *)
Definition upload_filename (req : UploadRequest) : option string :=
  head (omap (fun field => match field with
                           | FileField _ _ filename _ => Some filename
                           | TextField _ _ => None
                           end) (up_form req)).

(** The chunk files the coordinator enumerates in directory [files]. *)
Definition chunk_files_of (files : gmap string bytes) : list string :=
  sorted (List.filter (PyStr.startswith "_ziploy.zip.z") (map_to_list files).*1).

(** The upload tasks the coordinator starts on directory [files], in the
    order it starts them. *)
Definition coordinator_tasks (env : Env) (files : gmap string bytes)
    (ziployRemoteHost ziployId : string) (verify_ssl : bool)
  : list (option UploadRequest * (Exn + json)) :=
  imap (fun idx chunk =>
          async_upload_chunk env (Some files) (build_api_endpoint ziployRemoteHost)
            chunk verify_ssl ziployId
            (idx =? length (chunk_files_of files) - 1)%nat)
       (chunk_files_of files).

(** What [asyncio.gather] hands to the loop over [responses]. *)
Definition coordinator_responses (env : Env) (files : gmap string bytes)
    (ziployRemoteHost ziployId : string) (verify_ssl : bool) : list (Exn + json) :=
  (coordinator_tasks env files ziployRemoteHost ziployId verify_ssl).*2.

(** The pair an upload result supplies: that of a successful response
    whose body is an object with both keys, whatever their values. *)
Definition supplied_pair (resp : Exn + json) : option (json * json) :=
  match resp with
  | inr (JDict items) =>
      package ← dict_get "package" items;
      destination ← dict_get "destination" items;
      Some (package, destination)
  | _ => None
  end.

(** The pair the loop over [responses] ends with. *)
Definition kept_pair (responses : list (Exn + json)) : json * json :=
  default (JNull, JNull) (last (omap supplied_pair responses)).

(** The record the loop logs for one response. *)
Definition response_log (resp : Exn + json) : LogRecord :=
  match resp with
  | inl e => LogUploadError e
  | inr (JDict items) => LogUploaded1 (default (JStr "No message") (dict_get "message" items))
  | inr resp => LogUploaded2 resp
  end.

(** Modelled from the spec's words, to compare with [kept_pair]: "keep the
    most recently seen non-null pair". *)
Definition nonnull_pair (resp : Exn + json) : option (json * json) :=
  match supplied_pair resp with
  | Some (JNull, _) | Some (_, JNull) => None
  | other => other
  end.

Definition most_recent_nonnull_pair (responses : list (Exn + json)) : json * json :=
  default (JNull, JNull) (last (omap nonnull_pair responses)).

(** The request the task of chunk file [chunk] issues. *)
Definition chunk_request (files : gmap string bytes)
    (api_endpoint ziployId : string) (verify_ssl last_chunk : bool) (chunk : string)
  : UploadRequest :=
  mkUpload api_endpoint
    ([TextField "id" ziployId] ++
     (if last_chunk then [TextField "last" "true"] else []) ++
     [FileField "ziploy" (default [] (files !! chunk)) chunk "application/octet-stream"])
    verify_ssl.

(** The requests of the coordinator's tasks on directory [files], in the
    order of the tasks. *)
Definition coordinator_requests (files : gmap string bytes)
    (ziployRemoteHost ziployId : string) (verify_ssl : bool) : list UploadRequest :=
  imap (fun idx chunk =>
          chunk_request files (build_api_endpoint ziployRemoteHost) ziployId verify_ssl
            (idx =? length (chunk_files_of files) - 1)%nat chunk)
       (chunk_files_of files).

(** The command line [ssh_unzip] runs. *)
Definition ssh_argv (cfg : SshConfig) (command : string) : list string :=
  ["ssh"; "-i"; ssh_key cfg; "-p"; PyStr.decimal (ssh_port cfg);
   ssh_user cfg ++ "@" ++ ssh_host cfg; command].

(** What the remote unpack step comes to when it runs ssh, and what the
    finalize step comes to, on world [w]. *)
Definition unpack_with (env : Env) (cfg : SshConfig) (cmd : string) (w : World)
  : Outcome unit * World :=
  let argv := ssh_argv cfg cmd in
  let world lg := mkWorld (staging w) (trace w ++ [EvSsh argv])
                          (log w ++ LogMethodIsSsh :: lg) in
  match ssh_run env argv with
  | SpawnError e => (Raise e, world [])
  | Completed rc out err =>
      if (rc =? 0)%Z then (Ok tt, world [LogSshOk out])
      else (Exit 1, world [LogSshFailed err])
  end.

(** How the finalize request ends, and what it logs. *)
Definition finalize_outcome (env : Env) (req : FinalizeRequest)
  : Outcome unit * list LogRecord :=
  match http_finalize env req with
  | TransportError e => (Raise e, [])
  | Response status body =>
      if (400 <=? status)%Z then (Raise (ClientResponseError status), [])
      else match body with
           | inl e => (Raise e, [])
           | inr final_response => (Ok tt, [LogDeployInitiated final_response])
           end
  end.

Definition finalize_with (env : Env) (req : FinalizeRequest) (w : World)
  : Outcome unit * World :=
  ((finalize_outcome env req).1,
   mkWorld (staging w) (trace w ++ [EvFinalize req])
           (log w ++ (finalize_outcome env req).2)).

(** Between two worlds, the staging directory stays in place and the
    trace as it is. *)
Definition keeps_staging (w w' : World) : Prop :=
  is_Some (staging w) -> is_Some (staging w') /\ trace w' = trace w.

(** An HTTP request issued with certificate verification disabled
    ([ssl=False]); the other events are no HTTP requests. *)
Definition verification_disabled (ev : Event) : Prop :=
  match ev with
  | EvUpload req => up_ssl req = false
  | EvFinalize req => fz_ssl req = false
  | EvZip _ | EvSsh _ => True
  end.

(** From [w] to [w'] the trace has grown by events that, where they are
    HTTP requests, have verification disabled. *)
Definition unverified_since (w w' : World) : Prop :=
  exists evs, trace w' = (trace w ++ evs)%list /\ Forall verification_disabled evs.

(** From [w] to [w'] only the log has changed. *)
Definition only_logged (w w' : World) : Prop :=
  staging w' = staging w /\ trace w' = trace w.

(** ** Further descriptions, for the properties beyond the claims *)

(** [n] slashes. *)
Fixpoint slashes (n : nat) : string :=
  match n with
  | O => EmptyString
  | S n' => String "/" (slashes n')
  end.

(** [s.endswith('/')] *)
Fixpoint ends_with_slash (s : string) : bool :=
  match s with
  | EmptyString => false
  | String c EmptyString => Ascii.eqb c "/"
  | String _ s' => ends_with_slash s'
  end.


(** The bytes an upload request sends. *)
Definition upload_data (req : UploadRequest) : option bytes :=
  head (omap (fun field => match field with
                           | FileField _ data _ _ => Some data
                           | TextField _ _ => None
                           end) (up_form req)).

(** The value of a text field of an upload request. *)
Definition upload_field (name : string) (req : UploadRequest) : option string :=
  head (omap (fun field => match field with
                           | TextField name' value =>
                               if String.eqb name' name then Some value else None
                           | FileField _ _ _ _ => None
                           end) (up_form req)).


(** An outcome that, if it is a [sys.exit], has one of the statuses
    [codes]. *)
Definition exits_within (codes : list Z) {A} (o : Outcome A) : Prop :=
  match o with
  | Exit c => c ∈ codes
  | Ok _ | Raise _ => True
  end.



(** [main] from the archiver on, after the checks of the command line. *)
Definition deploy `{PyLib} (env : Env) (args : Args) : M unit :=
  generate_chunks env;;
  async_upload_chunks env (ziployRemoteHost args) (ziployId args) false "HTTP" None;;
  cleanup;;
  logging LogTotalTime.

(** An event that is the upload of a chunk to [endpoint] under [id]. *)
Definition is_upload_to (endpoint id : string) (ev : Event) : Prop :=
  exists req, ev = EvUpload req /\ up_endpoint req = endpoint /\
              upload_field "id" req = Some id.

(** ** An implementation of the library functions for ASCII text, and a
    sample environment, to run the program on *)

Module AsciiLib.

Definition upper_char (c : ascii) : ascii :=
  let n := nat_of_ascii c in
  if (97 <=? n)%nat && (n <=? 122)%nat then ascii_of_nat (n - 32) else c.

Definition lower_char (c : ascii) : ascii :=
  let n := nat_of_ascii c in
  if (65 <=? n)%nat && (n <=? 90)%nat then ascii_of_nat (n + 32) else c.

Fixpoint map_string (f : ascii -> ascii) (s : string) : string :=
  match s with
  | EmptyString => EmptyString
  | String c s' => String (f c) (map_string f s')
  end.

Definition is_space (c : ascii) : bool :=
  let n := nat_of_ascii c in
  (n =? 32)%nat || ((9 <=? n)%nat && (n <=? 13)%nat).

Fixpoint lstrip (s : string) : string :=
  match s with
  | String c s' => if is_space c then lstrip s' else s
  | EmptyString => EmptyString
  end.

Fixpoint rstrip (s : string) : string :=
  match s with
  | EmptyString => EmptyString
  | String c s' =>
      match rstrip s' with
      | EmptyString => if is_space c then EmptyString else String c EmptyString
      | r => String c r
      end
  end.

Definition is_digit (c : ascii) : bool :=
  let n := nat_of_ascii c in (48 <=? n)%nat && (n <=? 57)%nat.

Fixpoint all_digits (s : string) : bool :=
  match s with
  | EmptyString => true
  | String c s' => is_digit c && all_digits s'
  end.

Fixpoint before_colon (s : string) : option string :=
  match s with
  | EmptyString => None
  | String c s' =>
      if Ascii.eqb c ":" then Some EmptyString
      else String c <$> before_colon s'
  end.

#[global] Instance lib : PyLib := {|
  py_upper := map_string upper_char;
  py_strip := fun s => rstrip (lstrip s);
  py_isdigit := fun s => negb (String.eqb s "") && all_digits s;
  py_int := fun s => Z.of_nat (default 0%nat (PyStr.parse_decimal s));
  urlparse_scheme := fun url => map_string lower_char (default "" (before_colon url));
|}.

End AsciiLib.

(** The tasks resolve in the order they were started, or in the opposite
    order. *)
Definition fifo : Scheduler := mkScheduler (fun l => l) (fun l => reflexivity l).

Definition lifo : Scheduler := mkScheduler reverse reverse_Permutation.

Module Sample.

(** An archiver that succeeds and leaves [archive]. *)
Definition zip_ok (archive : bytes) : list string -> ZipOutcome :=
  fun _ => mkZip (Completed 0 "" "") (Some archive).

(** A server that acknowledges every chunk, and the last one with the
    package and its destination. *)
Definition ack (req : UploadRequest) : HttpOutcome :=
  Response 200
    (inr (JDict (("message", JStr "ok") ::
                 if carries_last req
                 then [("package", JStr "pkg-1"); ("destination", JStr "/var/www/site")]
                 else []))).

Definition finalize_ok (req : FinalizeRequest) : HttpOutcome :=
  Response 200 (inr (JDict [("status", JStr "started")])).

Definition ssh_ok (argv : list string) : ProcOutcome := Completed 0 "unpacked" "".

Definition ssh_fails (argv : list string) : ProcOutcome := Completed 255 "" "denied".

Definition archive3 : bytes := [x01; x02; x03]%byte.

Definition env : Env := mkEnv None (zip_ok archive3) ack finalize_ok ssh_ok lifo.

Definition world0 : World := mkWorld None [] [].

Definition cfg : SshConfig := mkSshConfig "deploy" "example.org" 22 "id_rsa".

Definition unpack_cmd : string := "unzip -o /tmp/_ziploy.zip -d /var/www/site".

Definition ssh_params : option SshParams :=
  Some (mkSshParams (Some unpack_cmd) (Some cfg)).

(** The remote command fails. *)
Definition env_ssh_fails : Env :=
  mkEnv None (zip_ok archive3) ack finalize_ok ssh_fails fifo.

(** Every upload fails: the connection is refused. *)
Definition refused (req : UploadRequest) : HttpOutcome :=
  TransportError (mkExn "ClientConnectorError" "connection refused").

Definition env_refused : Env :=
  mkEnv None (zip_ok archive3) refused finalize_ok ssh_ok fifo.

(** The server names package and destination on the first chunk, and
    sends both keys with null on the last. *)
Definition ack_then_null (req : UploadRequest) : HttpOutcome :=
  Response 200
    (inr (JDict (if carries_last req
                 then [("package", JNull); ("destination", JNull)]
                 else [("package", JStr "pkg-1");
                       ("destination", JStr "/var/www/site")]))).

Definition env_null : Env :=
  mkEnv None (zip_ok archive3) ack_then_null finalize_ok ssh_ok fifo.

(** The archiver fails. *)
Definition zip_fails : list string -> ZipOutcome :=
  fun _ => mkZip (Completed 12 "" "zip error: Nothing to do!") None.

Definition env_zip_fails : Env :=
  mkEnv None zip_fails ack finalize_ok ssh_ok fifo.

(** A staging directory of two chunks, and one of no chunk. *)
Definition two_chunks : gmap string bytes :=
  {[ "_ziploy.zip.z000" := [x01]%byte; "_ziploy.zip.z001" := [x02]%byte ]}.

Definition staged : World := mkWorld (Some two_chunks) [] [].

Definition staged_empty : World := mkWorld (Some ∅) [] [].

(** An archive of 1000 chunks and one byte: 5 242 880 001 zero bytes. *)
Definition archive_big : bytes :=
  replicate (Z.to_nat (1000 * chunk_size + 1)) x00%byte.

Definition env_big : Env :=
  mkEnv None (zip_ok archive_big) ack finalize_ok ssh_ok fifo.

Definition args_ssh : Args :=
  mkArgs "SSH" "id-1" "https://example.org/" ["deploy"; "example.org"; "id_rsa"] false.

End Sample.

Module SampleArgs.


Definition args_ssh_short : Args :=
  mkArgs "ssh" "id-1" "https://example.org" ["deploy"; "example.org"] false.

Definition args_ssh_port : Args :=
  mkArgs "SSH" "id-1" "https://example.org"
    [" deploy "; "example.org"; "2222"; "id_rsa"; "ignored"] false.

Definition args_http : Args :=
  mkArgs "HTTP" "id-1" "https://example.org//" [] true.

End SampleArgs.

Module SampleEnvs.


Definition env_empty_archive : Env :=
  mkEnv None (Sample.zip_ok []) Sample.ack Sample.finalize_ok Sample.ssh_ok fifo.

Definition env_no_zip : Env :=
  mkEnv None (fun _ => mkZip (SpawnError (FileNotFoundError "zip")) None)
        Sample.ack Sample.finalize_ok Sample.ssh_ok fifo.

(** A project with an override file of exclusion patterns. *)
Definition env_ignore : Env :=
  mkEnv (Some ["# build output"; "dist/*"; ""; "  *.log  "; "dist/*"])
        (Sample.zip_ok Sample.archive3) Sample.ack Sample.finalize_ok
        Sample.ssh_ok lifo.

(** The finalize request is refused. *)
Definition env_finalize_fails : Env :=
  mkEnv None (Sample.zip_ok Sample.archive3) Sample.ack
        (fun _ => Response 500 (inr (JDict []))) Sample.ssh_ok fifo.

End SampleEnvs.
(** ** The order on strings and [sorted] *)

Section StringOrder.

Lemma ascii_compare_refl c : Ascii.compare c c = Eq.
Proof. unfold Ascii.compare. apply N.compare_refl. Qed.

Lemma ascii_compare_lt_trans x y z :
  Ascii.compare x y = Lt -> Ascii.compare y z = Lt -> Ascii.compare x z = Lt.
Proof.
  unfold Ascii.compare. rewrite !N.compare_lt_iff. lia.
Qed.

Lemma compare_lt_trans a b c :
  String.compare a b = Lt -> String.compare b c = Lt -> String.compare a c = Lt.
Proof.
  revert b c. induction a as [|x a IH]; intros [|y b] [|z c]; simpl; try done.
  destruct (Ascii.compare x y) eqn:Hxy; try done;
    destruct (Ascii.compare y z) eqn:Hyz; try done.
  - apply Ascii.compare_eq_iff in Hxy, Hyz. subst.
    rewrite ascii_compare_refl. apply IH.
  - apply Ascii.compare_eq_iff in Hxy. subst. by rewrite Hyz.
  - apply Ascii.compare_eq_iff in Hyz. subst. by rewrite Hxy.
  - by rewrite (ascii_compare_lt_trans x y z).
Qed.

Lemma compare_refl a : String.compare a a = Eq.
Proof. induction a; simpl; [done|]. by rewrite ascii_compare_refl. Qed.

#[global] Instance le_refl : Reflexive PyStr.le.
Proof. intros a. unfold PyStr.le, String.leb. by rewrite compare_refl. Qed.

#[global] Instance le_trans : Transitive PyStr.le.
Proof.
  intros a b c. unfold PyStr.le, String.leb.
  destruct (String.compare a b) eqn:Hab; try done.
  - apply String.compare_eq_iff in Hab. by subst.
  - destruct (String.compare b c) eqn:Hbc; try done.
    + apply String.compare_eq_iff in Hbc. subst. by rewrite Hab.
    + by rewrite (compare_lt_trans a b c).
Qed.

#[global] Instance le_antisym : AntiSymm (=) PyStr.le.
Proof. intros a b. apply String.leb_antisym. Qed.

#[global] Instance le_total : Total PyStr.le.
Proof. intros a b. apply String.leb_total. Qed.

Lemma lt_le a b : PyStr.lt a b -> PyStr.le a b.
Proof.
  unfold PyStr.lt, PyStr.le, String.ltb, String.leb.
  by destruct (String.compare a b).
Qed.

Lemma sorted_Sorted l : StronglySorted PyStr.le (sorted l).
Proof. apply StronglySorted_merge_sort; apply _. Qed.

Lemma sorted_Permutation l : sorted l ≡ₚ l.
Proof. apply merge_sort_Permutation. Qed.

(** Whatever algorithm [sorted] runs, its result is the one sorted
    arrangement of the list. *)
Lemma sorted_unique l l' :
  l' ≡ₚ l -> StronglySorted PyStr.le l' -> sorted l = l'.
Proof.
  intros Hp Hs. apply (StronglySorted_unique PyStr.le); auto using sorted_Sorted.
  by rewrite sorted_Permutation, Hp.
Qed.

Lemma sorted_perm_eq l1 l2 : l1 ≡ₚ l2 -> sorted l1 = sorted l2.
Proof.
  intros Hp. apply sorted_unique; [|apply sorted_Sorted].
  by rewrite sorted_Permutation, Hp.
Qed.

Lemma sorted_last_max l m :
  last (sorted l) = Some m -> m ∈ l /\ Forall (fun x => PyStr.le x m) l.
Proof.
  intros Hl.
  assert (Hs := sorted_Sorted l).
  rewrite <- (sorted_Permutation l).
  destruct (sorted l) as [|x xs _] using rev_ind; [done|].
  rewrite last_snoc in Hl. injection Hl as ->.
  split; [set_solver|].
  apply StronglySorted_app in Hs as (Hs & _ & _).
  apply Forall_app. split.
  - apply Forall_forall. intros y Hy. apply Hs; [done|set_solver].
  - by apply Forall_singleton.
Qed.

End StringOrder.

(** ** Chunk names *)

Section ChunkNames.

Lemma parse_zeros n s :
  PyStr.parse_decimal (PyStr.zeros n ++ s) = PyStr.parse_decimal s.
Proof.
  induction n as [|n IH]; [done|].
  simpl. unfold PyStr.parse_decimal in *. simpl.
  destruct (NilEmpty.uint_of_string (PyStr.zeros n ++ s)) as [d|] eqn:Hd;
    destruct (NilEmpty.uint_of_string s) as [d'|] eqn:Hd'; simpl in *; try done.
Qed.

Lemma parse_format n : PyStr.parse_decimal (PyStr.format_03d n) = Some n.
Proof.
  unfold PyStr.format_03d, PyStr.zfill. rewrite parse_zeros.
  unfold PyStr.parse_decimal, PyStr.decimal.
  rewrite NilEmpty.usu. simpl. by rewrite Unsigned.of_to.
Qed.

#[global] Instance chunk_filename_inj : Inj (=) (=) chunk_filename.
Proof.
  intros i j Hij. unfold chunk_filename in Hij.
  apply (inj (String.append _)) in Hij.
  apply (f_equal PyStr.parse_decimal) in Hij.
  rewrite !parse_format in Hij. by injection Hij.
Qed.

Lemma startswith_app p s : PyStr.startswith p (p ++ s) = true.
Proof.
  unfold PyStr.startswith. induction p as [|c p IH]; simpl.
  - by destruct s.
  - by destruct (ascii_dec c c).
Qed.

Lemma chunk_filename_prefix k :
  PyStr.startswith "_ziploy.zip.z" (chunk_filename k) = true.
Proof. apply startswith_app. Qed.

Lemma chunk_filename_not_zip k : chunk_filename k ≠ zip_name.
Proof.
  intros Heq.
  change ("_ziploy.zip" ++ (".z" ++ PyStr.format_03d k) = "_ziploy.zip" ++ "") in Heq.
  apply (inj (String.append _)) in Heq. discriminate Heq.
Qed.

End ChunkNames.

(** ** The splitter *)

Section Splitter.

Lemma ceil_div_0 c : (0 < c)%Z -> ceil_div 0 c = 0%Z.
Proof. intros Hc. unfold ceil_div. apply Z.div_small. lia. Qed.

Lemma ceil_div_step l c :
  (0 < c)%Z -> (0 < l)%Z ->
  ceil_div l c = (1 + ceil_div (Z.max 0 (l - c)) c)%Z.
Proof.
  intros Hc Hl. unfold ceil_div.
  destruct (Z.le_gt_cases l c) as [Hle|Hgt].
  - rewrite Z.max_l by lia.
    replace (l + c - 1)%Z with ((l - 1) + 1 * c)%Z by lia.
    rewrite Z.div_add by lia.
    rewrite (Z.div_small (l - 1)), (Z.div_small (0 + c - 1)) by lia. lia.
  - rewrite Z.max_r by lia.
    replace (l + c - 1)%Z with ((l - c + c - 1) + 1 * c)%Z by lia.
    rewrite Z.div_add by lia. lia.
Qed.

Context (size : nat) (Hsize : (0 < size)%nat).

Lemma read_advances (f : bytes) (b : byte) (chunk : bytes) :
  take size f = b :: chunk -> (length (drop size f) < length f)%nat.
Proof.
  intros Htake.
  assert (Hlen : length (take size f) = S (length chunk)) by (by rewrite Htake).
  rewrite length_take in Hlen. rewrite length_drop. lia.
Qed.

Lemma read_eof (f : bytes) : take size f = [] -> f = [].
Proof.
  intros Htake. apply (f_equal length) in Htake.
  rewrite length_take in Htake. apply nil_length_inv. simpl in Htake. lia.
Qed.

Lemma chunks_fuel fuel1 fuel2 f :
  (length f < fuel1)%nat -> (length f < fuel2)%nat ->
  chunks size fuel1 f = chunks size fuel2 f.
Proof.
  revert fuel2 f. induction fuel1 as [|fuel1 IH]; intros fuel2 f H1 H2; [lia|].
  destruct fuel2 as [|fuel2]; [lia|]. simpl.
  destruct (take size f) as [|b chunk] eqn:Htake; [done|].
  apply read_advances in Htake. f_equal. apply IH; lia.
Qed.

Lemma chunks_concat fuel f :
  (length f < fuel)%nat -> concat (chunks size fuel f) = f.
Proof.
  revert f. induction fuel as [|fuel IH]; intros f Hf; [lia|].
  simpl. destruct (take size f) as [|b chunk] eqn:Htake.
  - by apply read_eof in Htake.
  - simpl. rewrite IH.
    + rewrite app_comm_cons, <- Htake. apply take_drop.
    + apply read_advances in Htake. lia.
Qed.

Lemma chunks_length fuel f :
  (length f < fuel)%nat ->
  Z.of_nat (length (chunks size fuel f)) =
  ceil_div (Z.of_nat (length f)) (Z.of_nat size).
Proof.
  revert f. induction fuel as [|fuel IH]; intros f Hf; [lia|].
  simpl. destruct (take size f) as [|b chunk] eqn:Htake.
  - apply read_eof in Htake as ->.
    simpl. by rewrite ceil_div_0 by lia.
  - apply read_advances in Htake.
    rewrite ceil_div_step by lia.
    cbn [length]. rewrite Nat2Z.inj_succ, IH by lia.
    rewrite length_drop.
    replace (Z.of_nat (length f - size)) with
      (Z.max 0 (Z.of_nat (length f) - Z.of_nat size)) by lia.
    lia.
Qed.

(** Chunk [k] is the [k]-th stretch of [size] bytes of the file. *)
Lemma chunks_lookup fuel f k chunk :
  (length f < fuel)%nat ->
  chunks size fuel f !! k = Some chunk ->
  chunk = take size (drop (k * size) f) /\ chunk <> [].
Proof.
  revert f k. induction fuel as [|fuel IH]; intros f k Hf; [lia|].
  simpl. destruct (take size f) as [|b c] eqn:Htake; [done|].
  destruct k as [|k]; simpl.
  - intros [= <-]. by rewrite drop_0.
  - intros Hk. apply IH in Hk as [-> Hne].
    + split; [|done]. by rewrite drop_drop.
    + apply read_advances in Htake. lia.
Qed.

Lemma chunks_sizes fuel f k chunk :
  (length f < fuel)%nat ->
  chunks size fuel f !! k = Some chunk ->
  (1 <= length chunk <= size)%nat /\
  (S k < length (chunks size fuel f) -> length chunk = size)%nat.
Proof.
  revert f k. induction fuel as [|fuel IH]; intros f k Hf; [lia|].
  simpl. destruct (take size f) as [|b c] eqn:Htake; [done|].
  assert (Hdrop : (length (drop size f) < fuel)%nat).
  { apply read_advances in Htake. lia. }
  destruct k as [|k]; simpl.
  - intros [= <-]. rewrite <- Htake, length_take. split.
    + assert (0 < length (take size f))%nat by (rewrite Htake; simpl; lia).
      rewrite length_take in *. lia.
    + intros Hnext.
      destruct fuel as [|fuel']; [simpl in Hnext; lia|].
      simpl in Hnext.
      destruct (take size (drop size f)) as [|b' c'] eqn:Htake2; [simpl in Hnext; lia|].
      assert (0 < length (take size (drop size f)))%nat by (rewrite Htake2; simpl; lia).
      rewrite length_take, length_drop in *. lia.
  - intros Hk. apply IH in Hk as [Hb Hfull]; [|done].
    split; [done|]. intros Hnext. apply Hfull. lia.
Qed.

End Splitter.

(** ** Running the monad *)

Section Run.

Lemma bind_ok {A B} (m : M A) (f : A -> M B) w a w' :
  m w = (Ok a, w') -> (m ≫= f) w = f a w'.
Proof. intros Hm. unfold mbind, M_bind. by rewrite Hm. Qed.

Lemma bind_exit {A B} (m : M A) (f : A -> M B) w c w' :
  m w = (Exit c, w') -> (m ≫= f) w = (Exit c, w').
Proof. intros Hm. unfold mbind, M_bind. by rewrite Hm. Qed.

Lemma bind_raise {A B} (m : M A) (f : A -> M B) w e w' :
  m w = (Raise e, w') -> (m ≫= f) w = (Raise e, w').
Proof. intros Hm. unfold mbind, M_bind. by rewrite Hm. Qed.

Lemma chunk_entries_cons idx c cs :
  chunk_entries idx (c :: cs) = (chunk_filename idx, c) :: chunk_entries (S idx) cs.
Proof.
  unfold chunk_entries. rewrite imap_cons, Nat.add_0_r. f_equal.
  apply imap_ext. intros k x _. simpl. by rewrite Nat.add_succ_r.
Qed.

Lemma chunk_entries_keys idx cs :
  (chunk_entries idx cs).*1 = chunk_filename <$> seq idx (length cs).
Proof.
  revert idx. induction cs as [|c cs IH]; intros idx; [done|].
  rewrite chunk_entries_cons. simpl. by rewrite IH.
Qed.

Lemma chunk_entries_fresh idx j cs :
  (j < idx)%nat ->
  (list_to_map (chunk_entries idx cs) : gmap string bytes) !! chunk_filename j = None.
Proof.
  intros Hj. apply not_elem_of_list_to_map_1.
  rewrite chunk_entries_keys, list_elem_of_fmap.
  intros (k & Hk%(inj chunk_filename) & Hin%elem_of_seq). lia.
Qed.

Lemma chunk_entries_NoDup idx cs : NoDup (chunk_entries idx cs).*1.
Proof.
  rewrite chunk_entries_keys. apply (NoDup_fmap_2 _), NoDup_seq.
Qed.

Lemma write_file_run name data w files :
  staging w = Some files ->
  write_file name data w =
  (Ok tt, mkWorld (Some (<[name := data]> files)) (trace w) (log w)).
Proof.
  intros Hw. unfold write_file, get_staging, set_staging, mbind, M_bind.
  by rewrite Hw.
Qed.

Lemma split_loop_run size fuel f idx w files :
  staging w = Some files ->
  split_loop size fuel f idx w =
  (Ok tt, mkWorld (Some (list_to_map (chunk_entries idx (chunks size fuel f)) ∪ files))
                  (trace w) (log w ++ created_log idx (chunks size fuel f))).
Proof.
  revert f idx w files. induction fuel as [|fuel IH]; intros f idx w files Hw.
  - simpl. unfold mret, M_ret, created_log. simpl.
    rewrite (left_id_L ∅ (∪)), app_nil_r, <- Hw. by destruct w.
  - destruct (take size f) as [|b chunk] eqn:Htake.
    + simpl. rewrite Htake. unfold mret, M_ret, created_log. simpl.
      rewrite (left_id_L ∅ (∪)), app_nil_r, <- Hw. by destruct w.
    + assert (Hc : chunks size (S fuel) f =
                   (b :: chunk) :: chunks size fuel (drop size f))
        by (simpl; by rewrite Htake).
      rewrite Hc. unfold created_log. rewrite chunk_entries_cons.
      cbn [split_loop]. rewrite Htake.
      erewrite bind_ok by (by apply write_file_run).
      erewrite bind_ok by reflexivity.
      erewrite IH by reflexivity.
      rewrite list_to_map_cons, fmap_cons. cbn [trace log fst].
      rewrite <- app_assoc. f_equal. f_equal. f_equal.
      rewrite <- insert_union_l. symmetry. apply insert_union_r.
      apply chunk_entries_fresh. lia.
Qed.

End Run.

Lemma chunk_size_pos : (0 < chunk_size)%Z.
Proof. reflexivity. Qed.

Lemma chunk_size_value : chunk_size = (5 * 1024 * 1024)%Z.
Proof. reflexivity. Qed.

Lemma read_size_pos : (0 < Z.to_nat chunk_size)%nat.
Proof. unfold chunk_size. lia. Qed.

Section GenerateChunks.
Context `{PyLib} (env : Env).

Local Opaque chunk_size.

Lemma read_file_run name data w files :
  staging w = Some files -> files !! name = Some data ->
  read_file name w = (Ok data, w).
Proof.
  intros Hw Hf. unfold read_file, get_staging, mbind, M_bind.
  rewrite Hw. simpl. by rewrite Hf.
Qed.

Lemma remove_file_run name data w files :
  staging w = Some files -> files !! name = Some data ->
  remove_file name w = (Ok tt, mkWorld (Some (delete name files)) (trace w) (log w)).
Proof.
  intros Hw Hf. unfold remove_file, get_staging, set_staging, mbind, M_bind.
  rewrite Hw. destruct (decide (is_Some (files !! name))) as [|Hn]; [done|].
  destruct Hn. by rewrite Hf.
Qed.

Lemma listdir_run w files :
  staging w = Some files -> listdir w = (Ok (map_to_list files).*1, w).
Proof.
  intros Hw. unfold listdir, get_staging, mbind, M_bind. by rewrite Hw.
Qed.

Lemma chunk_dir_not_zip cs : chunk_dir cs !! zip_name = None.
Proof.
  apply not_elem_of_list_to_map_1.
  rewrite chunk_entries_keys, list_elem_of_fmap.
  intros (k & Hk & _). by apply (chunk_filename_not_zip k).
Qed.

Lemma chunk_dir_listing cs :
  (map_to_list (chunk_dir cs)).*1 ≡ₚ chunk_filename <$> seq 0 (length cs).
Proof.
  unfold chunk_dir. rewrite <- chunk_entries_keys.
  apply fmap_Permutation, map_to_list_to_map, chunk_entries_NoDup.
Qed.

Lemma chunk_dir_size cs : size (chunk_dir cs) = length cs.
Proof.
  rewrite <- length_map_to_list, <- (length_fmap fst), chunk_dir_listing.
  by rewrite length_fmap, length_seq.
Qed.

Lemma chunk_entries_lookup idx cs k :
  (list_to_map (chunk_entries idx cs) : gmap string bytes) !! chunk_filename (idx + k)
  = cs !! k.
Proof.
  revert idx k. induction cs as [|c cs IH]; intros idx k.
  - unfold chunk_entries. simpl. by rewrite lookup_empty.
  - rewrite chunk_entries_cons, list_to_map_cons. destruct k as [|k].
    + by rewrite Nat.add_0_r, lookup_insert_eq.
    + rewrite lookup_insert_ne by (intros Heq%(inj chunk_filename); lia).
      by rewrite Nat.add_succ_r, <- Nat.add_succ_l, IH.
Qed.

Lemma chunk_dir_lookup cs k : chunk_at (chunk_dir cs) k = cs !! k.
Proof. apply (chunk_entries_lookup 0). Qed.

Lemma chunk_dir_names cs name :
  is_Some (chunk_dir cs !! name) <->
  exists k, (k < length cs)%nat /\ name = chunk_filename k.
Proof.
  rewrite <- elem_of_dom. unfold chunk_dir.
  rewrite dom_list_to_map_L, elem_of_list_to_set, chunk_entries_keys.
  rewrite list_elem_of_fmap. setoid_rewrite elem_of_seq.
  split; intros (k & ? & ?); exists k; split; auto; lia.
Qed.

Lemma omap_seq_lookup {A} (f : nat -> option A) (l : list A) idx :
  (forall j, f (idx + j)%nat = l !! j) -> omap f (seq idx (length l)) = l.
Proof.
  revert idx. induction l as [|a l IH]; intros idx Hf; [done|].
  simpl. specialize (Hf 0%nat) as Hf0. rewrite Nat.add_0_r in Hf0.
  rewrite Hf0. simpl. f_equal. apply IH. intros j.
  specialize (Hf (S j)). by rewrite Nat.add_succ_r in Hf.
Qed.

Lemma chunks_in_order_dir cs : chunks_in_order (chunk_dir cs) (length cs) = cs.
Proof.
  unfold chunks_in_order. apply omap_seq_lookup. intros j. apply chunk_dir_lookup.
Qed.

(** The archiver succeeds and leaves [archive]: the staging directory
    ends up holding the chunks of [archive] and nothing else. *)
Lemma generate_chunks_ok w out err archive :
  zip_run env (zip_command env) = mkZip (Completed 0 out err) (Some archive) ->
  generate_chunks env w =
  (Ok tt,
   mkWorld (Some (chunk_dir (split archive)))
           (trace w ++ [EvZip (zip_command env)])
           (log w ++ [LogGenerating; LogPackageCreated; LogSplitting] ++
            created_log 0 (split archive) ++
            [LogDeletedZip (path_join output_folder zip_name);
             LogSplitInto (length (split archive))])).
Proof.
  intros Hzip. unfold generate_chunks.
  do 3 (erewrite bind_ok by reflexivity).
  rewrite Hzip.
  erewrite bind_ok; cycle 1.
  { erewrite bind_ok by (by apply write_file_run). reflexivity. }
  do 2 (erewrite bind_ok by reflexivity).
  erewrite bind_ok; cycle 1.
  { unfold try_except.
    erewrite bind_ok; cycle 1.
    { eapply read_file_run; [reflexivity|]. apply lookup_insert_eq. }
    erewrite split_loop_run by reflexivity. reflexivity. }
  erewrite bind_ok; cycle 1.
  { eapply remove_file_run; [reflexivity|].
    rewrite lookup_union_r by apply chunk_dir_not_zip. apply lookup_insert_eq. }
  erewrite bind_ok by reflexivity.
  erewrite bind_ok by (by apply listdir_run).
  unfold logging. cbn [staging trace log]. f_equal.
  set (cs := chunks _ _ _). change (split archive) with cs.
  change (list_to_map (chunk_entries 0 cs)) with (chunk_dir cs).
  rewrite delete_union, delete_insert_eq, delete_empty, (right_id_L ∅ (∪)).
  rewrite (delete_id _ _ (chunk_dir_not_zip _)).
  rewrite length_fmap, length_map_to_list, chunk_dir_size.
  f_equal. rewrite <- !app_assoc. cbn [app]. reflexivity.
Qed.

End GenerateChunks.

(** ** The Chunk Splitter *)

Section SplitterClaims.
Context `{PyLib} (env : Env).

Local Opaque chunk_size.

Lemma split_length archive : length (split archive) = num_chunks archive.
Proof.
  assert (Hl := chunks_length (Z.to_nat chunk_size) read_size_pos
                  (S (length archive)) archive (Nat.lt_succ_diag_r _)).
  rewrite Z2Nat.id in Hl by (pose proof chunk_size_pos; lia).
  unfold split, num_chunks. by rewrite <- Hl, Nat2Z.id.
Qed.

(** C1. For an archive of S > 0 bytes the splitter leaves exactly
    ceil(S / C) chunk files, C = 5 MiB: the files named by the sequence
    numbers 0 .. ceil(S / C) - 1 and no other file; every chunk has C
    bytes except possibly the last, which has between 1 and C bytes;
    and the chunks read back in sequence-number order are the archive. *)
Theorem C1_chunks_roundtrip (w : World) (out err : string) (archive : bytes) :
  zip_run env (zip_command env) = mkZip (Completed 0 out err) (Some archive) ->
  (0 < length archive)%nat ->
  exists files,
    (generate_chunks env w).1 = Ok tt /\
    staging (generate_chunks env w).2 = Some files /\
    Z.of_nat (size files) = ceil_div (Z.of_nat (length archive)) chunk_size /\
    chunk_size = (5 * 1024 * 1024)%Z /\
    (forall name, is_Some (files !! name) <->
                  exists k, (k < size files)%nat /\ name = chunk_filename k) /\
    (forall k chunk, chunk_at files k = Some chunk ->
       (1 <= Z.of_nat (length chunk) <= chunk_size)%Z /\
       ((S k < size files)%nat -> Z.of_nat (length chunk) = chunk_size)) /\
    concat (chunks_in_order files (size files)) = archive.
Proof.
  intros Hzip _. exists (chunk_dir (split archive)).
  rewrite (generate_chunks_ok env w out err archive Hzip). cbn [fst snd staging].
  rewrite chunk_dir_size.
  assert (Hsz : Z.of_nat (Z.to_nat chunk_size) = chunk_size)
    by (pose proof chunk_size_pos; lia).
  split; [reflexivity|]. split; [reflexivity|].
  split; [|split; [exact chunk_size_value|split; [|split]]].
  - rewrite split_length. unfold num_chunks. rewrite Z2Nat.id; [done|].
    unfold ceil_div. apply Z.div_pos; pose proof chunk_size_pos; lia.
  - apply chunk_dir_names.
  - intros k chunk Hk. rewrite chunk_dir_lookup in Hk.
    apply chunks_sizes in Hk as [Hbounds Hfull]; [|apply read_size_pos|lia].
    split; [lia|]. intros Hnext. rewrite Hfull; [done|]. apply Hnext.
  - rewrite chunks_in_order_dir. apply chunks_concat; [apply read_size_pos|lia].
Qed.

End SplitterClaims.

Lemma C1_chunks_roundtrip_witness :
  zip_run Sample.env (zip_command Sample.env) =
    mkZip (Completed 0 "" "") (Some Sample.archive3) /\
  (0 < length Sample.archive3)%nat /\
  exists files,
    (generate_chunks Sample.env Sample.world0).1 = Ok tt /\
    staging (generate_chunks Sample.env Sample.world0).2 = Some files /\
    Z.of_nat (size files) = ceil_div (Z.of_nat (length Sample.archive3)) chunk_size /\
    chunk_size = (5 * 1024 * 1024)%Z /\
    (forall name, is_Some (files !! name) <->
                  exists k, (k < size files)%nat /\ name = chunk_filename k) /\
    (forall k chunk, chunk_at files k = Some chunk ->
       (1 <= Z.of_nat (length chunk) <= chunk_size)%Z /\
       ((S k < size files)%nat -> Z.of_nat (length chunk) = chunk_size)) /\
    concat (chunks_in_order files (size files)) = Sample.archive3.
Proof.
  split; [reflexivity|]. split; [simpl; lia|].
  apply (C1_chunks_roundtrip Sample.env Sample.world0 "" "" Sample.archive3);
    [reflexivity | simpl; lia].
Defined.

(** ** Chunk names and the lexicographic order *)

Section NamesOrder.

Lemma names_sorted_1000 : StronglySorted PyStr.le (chunk_filename <$> seq 0 1000).
Proof.
  apply Sorted_StronglySorted; [apply _|].
  apply (bool_decide_unpack _). vm_compute. reflexivity.
Qed.

Lemma names_sorted n :
  (n <= 1000)%nat -> StronglySorted PyStr.le (chunk_filename <$> seq 0 n).
Proof.
  intros Hn. assert (Hs := names_sorted_1000).
  replace 1000%nat with (n + (1000 - n))%nat in Hs by lia.
  rewrite seq_app, fmap_app in Hs. by apply StronglySorted_app_1_l in Hs.
Qed.

Lemma names_three_digits_1000 :
  Forall (fun k => String.length (PyStr.format_03d k) = 3%nat) (seq 0 1000).
Proof. apply (bool_decide_unpack _). vm_compute. reflexivity. Qed.

Lemma names_three_digits n :
  (n <= 1000)%nat ->
  Forall (fun k => String.length (PyStr.format_03d k) = 3%nat) (seq 0 n).
Proof.
  intros Hn. assert (Hs := names_three_digits_1000).
  replace 1000%nat with (n + (1000 - n))%nat in Hs by lia.
  rewrite seq_app in Hs. by apply Forall_app in Hs as [Hs _].
Qed.

Lemma filter_all {A} (p : A -> bool) (l : list A) :
  Forall (fun x => p x = true) l -> List.filter p l = l.
Proof.
  induction 1 as [|x l Hx _ IH]; [done|]. simpl. by rewrite Hx, IH.
Qed.

Lemma get_chunk_files_run w files :
  staging w = Some files ->
  get_chunk_files w =
  (Ok (sorted (List.filter (PyStr.startswith "_ziploy.zip.z") (map_to_list files).*1)), w).
Proof.
  intros Hw. unfold get_chunk_files.
  erewrite bind_ok by (by apply listdir_run). reflexivity.
Qed.

Lemma chunk_dir_chunk_files cs :
  sorted (List.filter (PyStr.startswith "_ziploy.zip.z") (map_to_list (chunk_dir cs)).*1)
  = sorted (chunk_filename <$> seq 0 (length cs)).
Proof.
  rewrite filter_all.
  - apply sorted_perm_eq, chunk_dir_listing.
  - rewrite chunk_dir_listing. apply Forall_fmap, Forall_forall.
    intros k _. apply chunk_filename_prefix.
Qed.

End NamesOrder.

Section NamesClaims.
Context `{PyLib} (env : Env).

Local Opaque chunk_size.

Lemma num_chunks_le_1000 (archive : bytes) :
  (Z.of_nat (length archive) <= 1000 * chunk_size)%Z ->
  (num_chunks archive <= 1000)%nat.
Proof.
  intros Hlen. pose proof chunk_size_pos as Hpos. unfold num_chunks, ceil_div.
  apply Nat2Z.inj_le. rewrite Z2Nat.id by (apply Z.div_pos; lia).
  apply Z.lt_succ_r, Z.div_lt_upper_bound; lia.
Qed.

Lemma chunk_files_after_generate w out err archive :
  zip_run env (zip_command env) = mkZip (Completed 0 out err) (Some archive) ->
  get_chunk_files (generate_chunks env w).2 =
  (Ok (sorted (chunk_filename <$> seq 0 (num_chunks archive))),
   (generate_chunks env w).2).
Proof.
  intros Hzip. rewrite (generate_chunks_ok env w out err archive Hzip).
  cbn [snd]. erewrite get_chunk_files_run by reflexivity.
  by rewrite chunk_dir_chunk_files, split_length.
Qed.

(** C8, amended. For a chunk set of at most 1000 chunks (an archive of
    at most 1000 * 5 MiB) the chunk files are named with a zero-padded
    3-digit sequence suffix, and the coordinator's lexicographic sort of
    the names lists them in sequence-number order, the highest-numbered
    chunk last. *)
Theorem C8_sorted_is_sequence_order (w : World) (out err : string) (archive : bytes) :
  zip_run env (zip_command env) = mkZip (Completed 0 out err) (Some archive) ->
  (Z.of_nat (length archive) <= 1000 * chunk_size)%Z ->
  let w' := (generate_chunks env w).2 in
  let n := num_chunks archive in
  get_chunk_files w' = (Ok (chunk_filename <$> seq 0 n), w') /\
  Forall (fun k => chunk_filename k = "_ziploy.zip.z" ++ PyStr.format_03d k /\
                   String.length (PyStr.format_03d k) = 3%nat) (seq 0 n) /\
  last (chunk_filename <$> seq 0 n) = chunk_filename <$> last (seq 0 n).
Proof.
  intros Hzip Hlen w' n. assert (Hn := num_chunks_le_1000 archive Hlen).
  split; [|split].
  - unfold w'. rewrite (chunk_files_after_generate w out err archive Hzip).
    f_equal. f_equal. apply sorted_unique; [done|]. by apply names_sorted.
  - eapply Forall_impl; [by apply names_three_digits|]. by intros k Hk.
  - apply fmap_last.
Qed.

End NamesClaims.

Lemma C8_sorted_is_sequence_order_witness :
  zip_run Sample.env (zip_command Sample.env) =
    mkZip (Completed 0 "" "") (Some Sample.archive3) /\
  (Z.of_nat (length Sample.archive3) <= 1000 * chunk_size)%Z /\
  let w' := (generate_chunks Sample.env Sample.world0).2 in
  let n := num_chunks Sample.archive3 in
  get_chunk_files w' = (Ok (chunk_filename <$> seq 0 n), w') /\
  Forall (fun k => chunk_filename k = "_ziploy.zip.z" ++ PyStr.format_03d k /\
                   String.length (PyStr.format_03d k) = 3%nat) (seq 0 n) /\
  last (chunk_filename <$> seq 0 n) = chunk_filename <$> last (seq 0 n).
Proof.
  split; [reflexivity|]. split; [vm_compute; discriminate|].
  apply (C8_sorted_is_sequence_order Sample.env Sample.world0 "" "" Sample.archive3);
    [reflexivity | vm_compute; discriminate].
Defined.

Lemma sorted_1001_last :
  last (sorted (chunk_filename <$> seq 0 1001)) = Some (chunk_filename 999).
Proof. vm_compute. reflexivity. Qed.

Lemma num_chunks_big : num_chunks Sample.archive_big = 1001%nat.
Proof.
  unfold num_chunks, Sample.archive_big.
  rewrite length_replicate, Z2Nat.id by (vm_compute; discriminate).
  vm_compute. reflexivity.
Qed.

(** C8 as stated fails on an archive of 1001 chunks (5 242 880 001 bytes):
    chunk 1000 gets the 4-digit suffix "1000", and the sorted list of the
    names is not in sequence-number order: it ends with chunk 999. *)
Lemma C8_counterexample :
  let w' := (generate_chunks Sample.env_big Sample.world0).2 in
  num_chunks Sample.archive_big = 1001%nat /\
  chunk_filename 1000 = "_ziploy.zip.z1000" /\
  exists names,
    get_chunk_files w' = (Ok names, w') /\
    names <> chunk_filename <$> seq 0 1001 /\
    last names = Some (chunk_filename 999) /\
    last names <> Some (chunk_filename 1000).
Proof.
  intros w'. split; [apply num_chunks_big|]. split; [reflexivity|].
  exists (sorted (chunk_filename <$> seq 0 1001)). split; [|split; [|split]].
  - unfold w'.
    rewrite (chunk_files_after_generate Sample.env_big Sample.world0 "" ""
               Sample.archive_big eq_refl).
    by rewrite num_chunks_big.
  - intros Heq. apply (f_equal last) in Heq. rewrite sorted_1001_last in Heq.
    vm_compute in Heq. discriminate Heq.
  - apply sorted_1001_last.
  - rewrite sorted_1001_last. vm_compute. discriminate.
Qed.

(** ** The Transfer Coordinator *)

Section Coordinator.
Context `{PyLib} (env : Env).

Lemma fold_response_run acc resp w :
  fold_response acc resp w =
  (Ok (default acc (supplied_pair resp)),
   mkWorld (staging w) (trace w) (log w ++ [response_log resp])).
Proof.
  destruct resp as [e|[]]; try reflexivity.
  unfold fold_response, supplied_pair, response_log.
  erewrite bind_ok by reflexivity.
  by destruct (dict_get "package" items), (dict_get "destination" items).
Qed.

Lemma for_each_responses responses acc w :
  for_each responses acc fold_response w =
  (Ok (default acc (last (omap supplied_pair responses))),
   mkWorld (staging w) (trace w) (log w ++ (response_log <$> responses))).
Proof.
  revert acc w. induction responses as [|resp responses IH]; intros acc w.
  - simpl. rewrite app_nil_r. by destruct w.
  - cbn [for_each]. erewrite bind_ok by apply fold_response_run.
    rewrite IH. cbn [staging trace log]. rewrite <- app_assoc. f_equal.
    cbn [omap list_omap]. destruct (supplied_pair resp) as [pair|]; [|done].
    cbn [default]. rewrite last_cons.
    by destruct (last (omap supplied_pair responses)).
Qed.

(** The run of the coordinator up to the remote unpack: the uploads
    resolve in the scheduler's order, the responses are folded in the
    order of the tasks. *)
Lemma async_upload_chunks_run host id ssl method params w files :
  staging w = Some files ->
  let tasks := coordinator_tasks env files host id ssl in
  let pair := kept_pair tasks.*2 in
  async_upload_chunks env host id ssl method params w =
  (unpack_step env method params;;
   finalize_step env (build_finalize_endpoint host) id pair.1 pair.2 method ssl)
    (mkWorld (Some files)
             (trace w ++ completion env (EvUpload <$> omap fst tasks))
             (log w ++ (response_log <$> tasks.*2))).
Proof.
  intros Hw tasks pair. unfold async_upload_chunks.
  erewrite bind_ok by (by apply get_chunk_files_run).
  erewrite bind_ok by reflexivity.
  rewrite Hw. fold (chunk_files_of files).
  change (imap _ (chunk_files_of files)) with tasks.
  unfold gather at 1.
  erewrite bind_ok by (erewrite bind_ok by reflexivity; reflexivity).
  erewrite bind_ok by apply for_each_responses.
  cbn [staging trace log]. rewrite Hw.
  fold (kept_pair tasks.*2). fold pair. by destruct pair.
Qed.

End Coordinator.

Section Tasks.
Context `{PyLib} (env : Env).

Lemma chunk_files_of_elem files chunk :
  chunk ∈ chunk_files_of files ->
  is_Some (files !! chunk) /\ PyStr.startswith "_ziploy.zip.z" chunk = true.
Proof.
  unfold chunk_files_of. rewrite sorted_Permutation, list_elem_of_In, filter_In.
  intros [Hin Hp]. split; [|done].
  apply list_elem_of_In, list_elem_of_fmap in Hin as ([k v] & -> & Hkv).
  apply elem_of_map_to_list in Hkv. by exists v.
Qed.

Lemma async_upload_chunk_request files api chunk ssl id last_chunk :
  is_Some (files !! chunk) ->
  (async_upload_chunk env (Some files) api chunk ssl id last_chunk).1 =
  Some (chunk_request files api id ssl last_chunk chunk).
Proof.
  intros [data Hdata]. unfold async_upload_chunk, chunk_request.
  cbn [mbind option_bind]. by rewrite Hdata.
Qed.

Lemma omap_imap {A B C} (f : nat -> A -> B) (g : nat -> A -> C) (h : B -> option C)
    (l : list A) :
  (forall i x, l !! i = Some x -> h (f i x) = Some (g i x)) ->
  omap h (imap f l) = imap g l.
Proof.
  revert f g. induction l as [|x l IH]; intros f g Hfg; [done|].
  rewrite !imap_cons. cbn [omap list_omap]. rewrite (Hfg 0%nat x eq_refl).
  f_equal. apply IH. intros i y Hi. apply (Hfg (S i) y Hi).
Qed.

Lemma coordinator_tasks_requests files host id ssl :
  omap fst (coordinator_tasks env files host id ssl) =
  coordinator_requests files host id ssl.
Proof.
  apply omap_imap. intros i chunk Hi.
  apply async_upload_chunk_request, chunk_files_of_elem.
  by eapply list_elem_of_lookup_2.
Qed.

Lemma coordinator_requests_filenames files host id ssl :
  omap upload_filename (coordinator_requests files host id ssl) = chunk_files_of files.
Proof.
  unfold coordinator_requests.
  transitivity (imap (fun (_ : nat) (chunk : string) => chunk) (chunk_files_of files)).
  - apply omap_imap. intros i chunk _.
    unfold upload_filename, chunk_request. cbn [up_form].
    by destruct (i =? _)%nat.
  - by rewrite (imap_const (fun chunk : string => chunk)), list_fmap_id.
Qed.

Lemma coordinator_requests_ssl files host id ssl :
  Forall (fun req => up_ssl req = ssl) (coordinator_requests files host id ssl).
Proof.
  apply Forall_forall. intros req Hreq.
  apply elem_of_lookup_imap in Hreq as (i & chunk & -> & _). reflexivity.
Qed.

Lemma filter_none {A} (p : A -> bool) (l : list A) :
  Forall (fun x => p x = false) l -> List.filter p l = [].
Proof. induction 1 as [|x l Hx _ IH]; [done|]. simpl. by rewrite Hx. Qed.

(** Of the requests, the one of the last chunk file carries the marker
    and no other does. *)
Lemma coordinator_requests_last files host id ssl m :
  last (chunk_files_of files) = Some m ->
  List.filter carries_last (coordinator_requests files host id ssl) =
  [chunk_request files (build_api_endpoint host) id ssl true m].
Proof.
  intros Hlast. unfold coordinator_requests.
  destruct (chunk_files_of files) as [|x l _] using rev_ind; [done|].
  rewrite last_snoc in Hlast. injection Hlast as ->.
  rewrite imap_app, List.filter_app, length_app. cbn [length imap].
  rewrite filter_none.
  - replace (length l + 0 =? length l + 1 - 1)%nat with true
      by (symmetry; apply Nat.eqb_eq; lia).
    reflexivity.
  - apply Forall_forall. intros req Hreq.
    apply elem_of_lookup_imap in Hreq as (i & chunk & -> & Hi).
    apply lookup_lt_Some in Hi.
    replace (i =? length l + 1 - 1)%nat with false
      by (symmetry; apply Nat.eqb_neq; lia).
    reflexivity.
Qed.

End Tasks.

Section Steps.
Context `{PyLib} (env : Env).

(** Running a step: unfold the monad down to worlds. *)
Ltac run_step :=
  unfold unpack_step, ssh_unzip, finalize_step, cleanup,
    mbind, M_bind, mret, M_ret, emit, logging, raise, sys_exit,
    get_staging, set_staging;
  cbn [staging trace log fst snd].

(** The remote unpack step leaves the staging directory alone and adds
    to the trace at most one event, an ssh invocation. *)
Lemma unpack_step_shape method params w :
  let r := unpack_step env method params w in
  staging r.2 = staging w /\
  (exists lg, log r.2 = (log w ++ lg)%list) /\
  (trace r.2 = trace w \/ exists argv, trace r.2 = (trace w ++ [EvSsh argv])%list).
Proof.
  run_step.
  destruct (String.eqb (py_upper method) "SSH"); [|eauto using app_nil_r].
  destruct params as [[[cmd|] [cfg|]]|]; cbn [sp_command sp_config];
    try (split; [done|]; split; [by eexists|]; by left).
  - cbn [staging trace log fst snd].
    destruct (ssh_run env _) as [e|rc out err]; [|destruct (rc =? 0)%Z];
      cbn [staging trace log fst snd];
      (split; [done|]; split; [rewrite <- ?app_assoc; by eexists|]; right; by eexists).
  - split; [done|]. split; [by exists []; rewrite app_nil_r|]. by left.
Qed.

Lemma finalize_step_shape ep id p d method ssl w :
  let r := finalize_step env ep id p d method ssl w in
  staging r.2 = staging w /\
  (exists lg, log r.2 = (log w ++ lg)%list) /\
  trace r.2 = (trace w ++ [EvFinalize (mkFinalize ep (mkBody id p d method) ssl)])%list.
Proof.
  run_step.
  destruct (http_finalize env _) as [e|status [e|final_response]];
    [|destruct (400 <=? status)%Z..]; cbn [staging trace log fst snd];
    (split; [done|]; split; [|done]);
    first [by exists []; rewrite app_nil_r | by eexists].
Qed.

End Steps.

Section CoordinatorEvents.
Context `{PyLib} (env : Env).

Lemma new_events_app w w' evs :
  trace w' = (trace w ++ evs)%list -> new_events w w' = evs.
Proof. intros Htr. unfold new_events. by rewrite Htr, drop_app_length. Qed.

Lemma uploads_app tr1 tr2 : uploads (tr1 ++ tr2) = (uploads tr1 ++ uploads tr2)%list.
Proof. apply omap_app. Qed.

Lemma uploads_of_requests reqs : uploads (EvUpload <$> reqs) = reqs.
Proof.
  unfold uploads. induction reqs as [|req reqs IH]; [done|].
  rewrite fmap_cons. cbn [omap list_omap]. by rewrite IH.
Qed.

Lemma uploads_Permutation tr1 tr2 : tr1 ≡ₚ tr2 -> uploads tr1 ≡ₚ uploads tr2.
Proof. intros Hp. unfold uploads. by rewrite Hp. Qed.

(** The events of a run of the coordinator on an existing staging
    directory: the uploads of all the chunk files, in the order they
    resolve; then the ssh invocation, if any; then the finalize
    request, if the run gets that far. *)
Lemma coordinator_events host id ssl method params w files :
  staging w = Some files ->
  let r := async_upload_chunks env host id ssl method params w in
  let pair := kept_pair (coordinator_responses env files host id ssl) in
  let req := mkFinalize (build_finalize_endpoint host)
               (mkBody id pair.1 pair.2 method) ssl in
  staging r.2 = Some files /\
  exists ups ssh_evs fin_evs,
    trace r.2 = (trace w ++ ups ++ ssh_evs ++ fin_evs)%list /\
    ups ≡ₚ EvUpload <$> coordinator_requests files host id ssl /\
    (ssh_evs = [] \/ exists argv, ssh_evs = [EvSsh argv]) /\
    (fin_evs = [] \/ fin_evs = [EvFinalize req]).
Proof.
  intros Hw r pair req. unfold r.
  rewrite (async_upload_chunks_run env host id ssl method params w files Hw).
  rewrite coordinator_tasks_requests.
  fold (coordinator_responses env files host id ssl). fold pair.
  set (ups := completion env (EvUpload <$> coordinator_requests files host id ssl)).
  set (w1 := mkWorld _ _ _).
  assert (Hups : ups ≡ₚ EvUpload <$> coordinator_requests files host id ssl)
    by apply sched_perm.
  destruct (unpack_step_shape env method params w1) as (Hst & _ & Htr).
  unfold mbind, M_bind.
  destruct (unpack_step env method params w1) as [[[]|c|e] w2] eqn:Hu;
    cbn [fst snd] in *.
  - destruct (finalize_step_shape env (build_finalize_endpoint host) id
                pair.1 pair.2 method ssl w2) as (Hst2 & _ & Htr2).
    fold req in Htr2.
    split; [by rewrite Hst2, Hst|].
    exists ups. destruct Htr as [Htr|[argv Htr]].
    + exists [], [EvFinalize req]. repeat split; auto.
      rewrite Htr2, Htr. subst w1. cbn [trace].
      by rewrite <- !app_assoc.
    + exists [EvSsh argv], [EvFinalize req]. repeat split; eauto.
      rewrite Htr2, Htr. subst w1. cbn [trace].
      by rewrite <- !app_assoc.
  - split; [by rewrite Hst|].
    exists ups. destruct Htr as [Htr|[argv Htr]].
    + exists [], []. repeat split; auto.
      rewrite Htr. subst w1. cbn [trace].
      by rewrite !app_nil_r.
    + exists [EvSsh argv], []. repeat split; eauto.
      rewrite Htr. subst w1. cbn [trace].
      by rewrite <- !app_assoc.
  - split; [by rewrite Hst|].
    exists ups. destruct Htr as [Htr|[argv Htr]].
    + exists [], []. repeat split; auto.
      rewrite Htr. subst w1. cbn [trace].
      by rewrite !app_nil_r.
    + exists [EvSsh argv], []. repeat split; eauto.
      rewrite Htr. subst w1. cbn [trace].
      by rewrite <- !app_assoc.
Qed.

Lemma coordinator_uploads host id ssl method params w files :
  staging w = Some files ->
  uploads (new_events w (async_upload_chunks env host id ssl method params w).2)
  ≡ₚ coordinator_requests files host id ssl.
Proof.
  intros Hw.
  destruct (coordinator_events host id ssl method params w files Hw)
    as (_ & ups & ssh_evs & fin_evs & Hev & Hups & Hssh & Hfin).
  rewrite (new_events_app _ _ _ Hev), !uploads_app, (uploads_Permutation _ _ Hups), uploads_of_requests.
  destruct Hssh as [-> | [argv ->]], Hfin as [-> | ->]; simpl; by rewrite app_nil_r.
Qed.

End CoordinatorEvents.

Section LastMarker.
Context `{PyLib} (env : Env).

Lemma filter_Permutation_bool {A} (p : A -> bool) (l1 l2 : list A) :
  l1 ≡ₚ l2 -> List.filter p l1 ≡ₚ List.filter p l2.
Proof.
  induction 1 as [|x l1 l2 _ IH|x y l|l1 l2 l3 _ IH1 _ IH2]; simpl.
  - done.
  - destruct (p x); by rewrite IH.
  - destruct (p x), (p y); try done. apply perm_swap.
  - by rewrite IH1.
Qed.

(** C4. On a non-empty set of chunk files there is one upload request
    per chunk file, and exactly one of the requests carries the [last]
    marker field: the request of the chunk file whose name comes last
    in the lexicographic sort, above every other name. *)
Theorem C4_exactly_one_last (host id : string) (ssl : bool) (method : string)
    (params : option SshParams) (w : World) (files : gmap string bytes) :
  staging w = Some files ->
  chunk_files_of files <> [] ->
  let w' := (async_upload_chunks env host id ssl method params w).2 in
  let reqs := uploads (new_events w w') in
  omap upload_filename reqs ≡ₚ chunk_files_of files /\
  exists req m,
    List.filter carries_last reqs = [req] /\
    upload_filename req = Some m /\
    last (chunk_files_of files) = Some m /\
    Forall (fun name => PyStr.le name m) (chunk_files_of files).
Proof.
  intros Hw Hne w' reqs.
  assert (Hreqs : reqs ≡ₚ coordinator_requests files host id ssl)
    by (by apply coordinator_uploads).
  split.
  - rewrite Hreqs. by rewrite coordinator_requests_filenames.
  - destruct (last (chunk_files_of files)) as [m|] eqn:Hlast;
      [|by apply last_None in Hlast].
    exists (chunk_request files (build_api_endpoint host) id ssl true m), m.
    split; [|split; [done|split; [done|]]].
    + apply Permutation_singleton_r.
      rewrite (filter_Permutation_bool _ _ _ Hreqs).
      by rewrite (coordinator_requests_last files host id ssl m Hlast).
    + unfold chunk_files_of in *. apply sorted_last_max in Hlast as [_ Hmax].
      by rewrite sorted_Permutation.
Qed.

End LastMarker.

Lemma C4_exactly_one_last_witness :
  staging Sample.staged = Some Sample.two_chunks /\
  chunk_files_of Sample.two_chunks <> [] /\
  let w' := (async_upload_chunks Sample.env "https://example.org" "id-1" false
               "HTTP" None Sample.staged).2 in
  let reqs := uploads (new_events Sample.staged w') in
  omap upload_filename reqs ≡ₚ chunk_files_of Sample.two_chunks /\
  exists req m,
    List.filter carries_last reqs = [req] /\
    upload_filename req = Some m /\
    last (chunk_files_of Sample.two_chunks) = Some m /\
    Forall (fun name => PyStr.le name m) (chunk_files_of Sample.two_chunks).
Proof.
  split; [reflexivity|]. split; [vm_compute; discriminate|].
  apply (C4_exactly_one_last Sample.env "https://example.org" "id-1" false "HTTP"
           None Sample.staged Sample.two_chunks);
    [reflexivity | vm_compute; discriminate].
Defined.

Section UnpackCases.
Context `{PyLib} (env : Env).

Lemma unpack_step_ssh method cmd cfg w :
  String.eqb (py_upper method) "SSH" = true ->
  unpack_step env method (Some (mkSshParams (Some cmd) (Some cfg))) w =
  unpack_with env cfg cmd w.
Proof.
  intros Hm. unfold unpack_step, unpack_with, ssh_unzip. rewrite Hm.
  cbn [sp_command sp_config]. fold (ssh_argv cfg cmd).
  unfold mbind, M_bind, emit, logging, raise, sys_exit.
  cbn [staging trace log].
  destruct (ssh_run env (ssh_argv cfg cmd)) as [e|rc out err]; [|destruct (rc =? 0)%Z];
    cbn [staging trace log]; by rewrite <- ?app_assoc.
Qed.

(** The three ways of the remote unpack step: it is skipped; it runs
    ssh; it fails before running anything. *)
Lemma unpack_step_cases method params w :
  unpack_step env method params w = (Ok tt, w) \/
  (exists cmd cfg,
      params = Some (mkSshParams (Some cmd) (Some cfg)) /\
      String.eqb (py_upper method) "SSH" = true /\
      unpack_step env method params w = unpack_with env cfg cmd w) \/
  (exists e,
      unpack_step env method params w =
      (Raise e, mkWorld (staging w) (trace w) (log w ++ [LogMethodIsSsh]))).
Proof.
  destruct (String.eqb (py_upper method) "SSH") eqn:Hm.
  - destruct params as [[[cmd|] [cfg|]]|].
    + right. left. exists cmd, cfg. by rewrite unpack_step_ssh.
    + right. right. unfold unpack_step. rewrite Hm. by eexists.
    + right. right. unfold unpack_step. rewrite Hm. by eexists.
    + right. right. unfold unpack_step. rewrite Hm. by eexists.
    + left. unfold unpack_step. rewrite Hm. by destruct w.
  - left. unfold unpack_step. rewrite Hm. by destruct w.
Qed.

Lemma finalize_step_run ep id p d method ssl w :
  finalize_step env ep id p d method ssl w =
  finalize_with env (mkFinalize ep (mkBody id p d method) ssl) w.
Proof.
  unfold finalize_step, finalize_with, finalize_outcome.
  unfold mbind, M_bind, emit, logging, raise.
  cbn [staging trace log].
  destruct (http_finalize env _) as [e|status [e|final_response]];
    [|destruct (400 <=? status)%Z..]; cbn [staging trace log fst snd];
    by rewrite ?app_nil_r.
Qed.

End UnpackCases.

(** ** The Remote Unpack Bridge in the run of the coordinator *)

Section UnpackClaims.
Context `{PyLib} (env : Env).

Lemma new_events_mk w d evs lg :
  new_events w (mkWorld d (trace w ++ evs) lg) = evs.
Proof. by apply new_events_app. Qed.

Lemma ssh_calls_app tr1 tr2 :
  ssh_calls (tr1 ++ tr2) = (ssh_calls tr1 ++ ssh_calls tr2)%list.
Proof. apply omap_app. Qed.

Lemma finalizes_app tr1 tr2 :
  finalizes (tr1 ++ tr2) = (finalizes tr1 ++ finalizes tr2)%list.
Proof. apply omap_app. Qed.

Lemma ssh_calls_uploads ups reqs : ups ≡ₚ EvUpload <$> reqs -> ssh_calls ups = [].
Proof.
  intros Hp. apply Permutation_nil_r. unfold ssh_calls. rewrite Hp.
  clear Hp. induction reqs as [|req reqs IH]; [done|].
  rewrite fmap_cons. cbn [omap list_omap]. exact IH.
Qed.

Lemma finalizes_uploads ups reqs : ups ≡ₚ EvUpload <$> reqs -> finalizes ups = [].
Proof.
  intros Hp. apply Permutation_nil_r. unfold finalizes. rewrite Hp.
  clear Hp. induction reqs as [|req reqs IH]; [done|].
  rewrite fmap_cons. cbn [omap list_omap]. exact IH.
Qed.

(** C2, amended. When the coordinator is run with method SSH and is
    given the ssh parameters (the remote command and the credentials),
    it invokes the Remote Unpack Bridge exactly once, with the remote
    command, after every chunk upload has resolved and before the
    finalize request, if one is sent: the events of the run are the
    uploads of all the chunk files, then the one ssh invocation, then
    at most the finalize request. *)
Theorem C2_unpack_after_uploads_before_finalize (host id : string) (ssl : bool)
    (method cmd : string) (cfg : SshConfig) (w : World) (files : gmap string bytes) :
  staging w = Some files ->
  py_upper method = "SSH" ->
  let params := Some (mkSshParams (Some cmd) (Some cfg)) in
  let w' := (async_upload_chunks env host id ssl method params w).2 in
  exists ups fin,
    new_events w w' = (ups ++ [EvSsh (ssh_argv cfg cmd)] ++ fin)%list /\
    ups ≡ₚ EvUpload <$> coordinator_requests files host id ssl /\
    (fin = [] \/ exists req, fin = [EvFinalize req]) /\
    last (ssh_argv cfg cmd) = Some cmd /\
    ssh_calls (new_events w w') = [ssh_argv cfg cmd].
Proof.
  intros Hw Hm params w'. unfold w'.
  rewrite (async_upload_chunks_run env host id ssl method params w files Hw).
  rewrite coordinator_tasks_requests.
  set (ups := completion env (EvUpload <$> coordinator_requests files host id ssl)).
  set (pair := kept_pair _). set (w1 := mkWorld _ _ _).
  assert (Hups : ups ≡ₚ EvUpload <$> coordinator_requests files host id ssl)
    by apply sched_perm.
  assert (Hssh : exists fin,
             trace ((unpack_step env method params;;
                     finalize_step env (build_finalize_endpoint host) id
                       pair.1 pair.2 method ssl) w1).2 =
             (trace w ++ ups ++ [EvSsh (ssh_argv cfg cmd)] ++ fin)%list /\
             (fin = [] \/ exists req, fin = [EvFinalize req])).
  { unfold mbind, M_bind, params.
    rewrite unpack_step_ssh by (by rewrite Hm). unfold unpack_with.
    destruct (ssh_run env (ssh_argv cfg cmd)) as [e|rc out err];
      [|destruct (rc =? 0)%Z].
    - exists []. split; [|by left]. subst w1. cbn [snd trace].
      by rewrite <- app_assoc.
    - rewrite finalize_step_run.
      eexists. split; [|right; by eexists]. unfold finalize_with.
      subst w1. cbn [snd trace]. by rewrite <- !app_assoc.
    - exists []. split; [|by left]. subst w1. cbn [snd trace].
      by rewrite <- app_assoc. }
  destruct Hssh as (fin & Htr & Hfin).
  exists ups, fin. apply new_events_app in Htr. rewrite Htr.
  repeat split; try done.
  rewrite !ssh_calls_app, (ssh_calls_uploads _ _ Hups).
  by destruct Hfin as [-> | [req ->]].
Qed.

(** C3. Whenever a run of the coordinator has invoked the remote unpack
    command and the command returns a non-zero exit status, the
    finalize endpoint is not called and the process terminates with a
    non-zero exit status (1). *)
Theorem C3_unpack_failure_is_fatal (host id : string) (ssl : bool) (method : string)
    (params : option SshParams) (w : World) (argv : list string) (rc : Z)
    (out err : string) :
  let r := async_upload_chunks env host id ssl method params w in
  EvSsh argv ∈ new_events w r.2 ->
  ssh_run env argv = Completed rc out err ->
  rc <> 0%Z ->
  r.1 = Exit 1 /\ exit_status r.1 <> 0%Z /\ finalizes (new_events w r.2) = [].
Proof.
  intros r Hin Hrun Hrc. unfold r in *. clear r.
  destruct (staging w) as [files|] eqn:Hw; cycle 1.
  { exfalso. revert Hin. unfold async_upload_chunks, get_chunk_files, listdir.
    unfold mbind, M_bind, get_staging, raise. rewrite Hw. cbn [snd].
    unfold new_events. rewrite drop_all. by intros ?%elem_of_nil. }
  revert Hin.
  rewrite (async_upload_chunks_run env host id ssl method params w files Hw).
  rewrite coordinator_tasks_requests.
  set (ups := completion env (EvUpload <$> coordinator_requests files host id ssl)).
  set (pair := kept_pair _). set (w1 := mkWorld _ _ _).
  assert (Hups : ups ≡ₚ EvUpload <$> coordinator_requests files host id ssl)
    by apply sched_perm.
  assert (Hnot : EvSsh argv ∉ ups).
  { rewrite Hups. intros (req & Heq & _)%list_elem_of_fmap. discriminate Heq. }
  unfold mbind, M_bind.
  destruct (unpack_step_cases env method params w1)
    as [Hu | [(cmd & cfg & -> & Hm & Hu) | [e Hu]]]; rewrite Hu.
  - rewrite finalize_step_run. unfold finalize_with.
    intros Hin. exfalso.
    subst w1. cbn [snd trace] in Hin. rewrite <- app_assoc in Hin.
    rewrite new_events_mk in Hin.
    apply elem_of_app in Hin as [Hin|Hin%list_elem_of_singleton]; done.
  - unfold unpack_with.
    destruct (ssh_run env (ssh_argv cfg cmd)) as [e|rc' out' err'] eqn:Hrun';
      [|destruct (rc' =? 0)%Z eqn:Hrc'].
    + subst w1. cbn [snd trace]. rewrite <- app_assoc.
      rewrite new_events_mk.
      intros [Hin|Hin%list_elem_of_singleton]%elem_of_app; [done|].
      injection Hin as ->. congruence.
    + rewrite finalize_step_run. unfold finalize_with.
      intros Hin. exfalso.
      assert (Hargv : argv = ssh_argv cfg cmd).
      { subst w1. cbn [snd trace] in Hin. rewrite <- !app_assoc in Hin.
        rewrite new_events_mk in Hin.
        apply elem_of_app in Hin as [Hin|Hin]; try done.
        apply elem_of_cons in Hin as [Hin|Hin%list_elem_of_singleton];
          by try injection Hin. }
      subst argv. rewrite Hrun in Hrun'. injection Hrun' as -> _ _.
      apply Z.eqb_eq in Hrc'. done.
    + intros _. cbn [fst snd]. subst w1. cbn [trace]. rewrite <- app_assoc.
      rewrite new_events_mk.
      rewrite !finalizes_app, (finalizes_uploads _ _ Hups). done.
  - subst w1. cbn [snd trace]. rewrite new_events_mk.
    intros Hin. done.
Qed.

End UnpackClaims.

Lemma C2_unpack_after_uploads_before_finalize_witness :
  staging Sample.staged = Some Sample.two_chunks /\
  py_upper "ssh" = "SSH" /\
  let params := Some (mkSshParams (Some Sample.unpack_cmd) (Some Sample.cfg)) in
  let w' := (async_upload_chunks Sample.env "https://example.org" "id-1" false
               "ssh" params Sample.staged).2 in
  exists ups fin,
    new_events Sample.staged w' =
      (ups ++ [EvSsh (ssh_argv Sample.cfg Sample.unpack_cmd)] ++ fin)%list /\
    ups ≡ₚ EvUpload <$> coordinator_requests Sample.two_chunks
                          "https://example.org" "id-1" false /\
    (fin = [] \/ exists req, fin = [EvFinalize req]) /\
    last (ssh_argv Sample.cfg Sample.unpack_cmd) = Some Sample.unpack_cmd /\
    ssh_calls (new_events Sample.staged w') =
      [ssh_argv Sample.cfg Sample.unpack_cmd].
Proof.
  split; [reflexivity|]. split; [reflexivity|].
  apply (C2_unpack_after_uploads_before_finalize Sample.env "https://example.org"
           "id-1" false "ssh" Sample.unpack_cmd Sample.cfg Sample.staged
           Sample.two_chunks); reflexivity.
Defined.

(** C2 as stated fails for the runs started from [main]: with method SSH
    on the command line the run uploads the chunk and sends the finalize
    request (with method "HTTP"), and never invokes the bridge. It fails
    also for the coordinator run with method SSH and no ssh parameters. *)
Lemma C2_counterexample :
  let r := main Sample.env Sample.args_ssh Sample.world0 in
  let r' := async_upload_chunks Sample.env "https://example.org" "id-1" false
              "SSH" None Sample.staged in
  py_upper (ziployMethod Sample.args_ssh) = "SSH" /\
  r.1 = Ok tt /\
  ssh_calls (trace r.2) = [] /\
  length (uploads (trace r.2)) = 1%nat /\
  fin_method ∘ fz_body <$> finalizes (trace r.2) = ["HTTP"] /\
  r'.1 = Ok tt /\
  ssh_calls (trace r'.2) = [] /\
  length (finalizes (trace r'.2)) = 1%nat.
Proof. vm_compute. repeat split; reflexivity. Qed.

Lemma C3_unpack_failure_is_fatal_witness :
  let r := async_upload_chunks Sample.env_ssh_fails "https://example.org" "id-1"
             false "SSH" Sample.ssh_params Sample.staged in
  EvSsh (ssh_argv Sample.cfg Sample.unpack_cmd) ∈ new_events Sample.staged r.2 /\
  ssh_run Sample.env_ssh_fails (ssh_argv Sample.cfg Sample.unpack_cmd) =
    Completed 255 "" "denied" /\
  255%Z <> 0%Z /\
  r.1 = Exit 1 /\ exit_status r.1 <> 0%Z /\ finalizes (new_events Sample.staged r.2) = [].
Proof.
  assert (Hin : EvSsh (ssh_argv Sample.cfg Sample.unpack_cmd) ∈
                new_events Sample.staged
                  (async_upload_chunks Sample.env_ssh_fails "https://example.org"
                     "id-1" false "SSH" Sample.ssh_params Sample.staged).2).
  { vm_compute. repeat constructor. }
  split; [exact Hin|]. split; [reflexivity|]. split; [discriminate|].
  apply (C3_unpack_failure_is_fatal Sample.env_ssh_fails "https://example.org"
           "id-1" false "SSH" Sample.ssh_params Sample.staged
           (ssh_argv Sample.cfg Sample.unpack_cmd) 255 "" "denied");
    [exact Hin | reflexivity | discriminate].
Defined.

(** ** Upload failures, the empty chunk set, the aggregated pair *)

Section CoordinatorClaims.
Context `{PyLib} (env : Env).

Lemma task_success files host id ssl task v :
  task ∈ coordinator_tasks env files host id ssl ->
  task.2 = inr v ->
  exists req status,
    task.1 = Some req /\
    http_upload env req = Response status (inr v) /\
    (status < 400)%Z.
Proof.
  intros (i & chunk & -> & _)%elem_of_lookup_imap.
  unfold async_upload_chunk.
  destruct (Some files ≫= lookup chunk) as [data|]; [|done].
  cbn [fst snd]. set (req := mkUpload _ _ _). intros Hres. exists req.
  destruct (http_upload env req) as [e|status body] eqn:Hup; [done|].
  destruct (400 <=? status)%Z eqn:Hst; [done|]. subst body.
  exists status. split; [done|]. split; [done|]. by apply Z.leb_gt.
Qed.

Lemma kept_pair_snoc responses resp :
  kept_pair (responses ++ [resp]) = default (kept_pair responses) (supplied_pair resp).
Proof.
  unfold kept_pair. rewrite omap_app. cbn [omap list_omap].
  destruct (supplied_pair resp) as [pair|].
  - by rewrite last_snoc.
  - by rewrite app_nil_r.
Qed.

(** C7, amended. Every finalize request carries the pair the loop over
    the responses ends with: that of the last response, in the order of
    the tasks, that is a successful acknowledgement holding both keys,
    whatever their values (null included), each such acknowledgement
    overwriting the pair kept so far; null and null when there is none.
    A pair that was supplied comes from the acknowledgement of an upload
    request of the run that succeeded (status below 400, a JSON object),
    never from a failed upload. *)
Theorem C7_pair_of_last_acknowledgement (host id : string) (ssl : bool)
    (method : string) (params : option SshParams) (w : World)
    (files : gmap string bytes) :
  staging w = Some files ->
  let w' := (async_upload_chunks env host id ssl method params w).2 in
  let responses := coordinator_responses env files host id ssl in
  Forall (fun req => (fin_package (fz_body req), fin_destination (fz_body req))
                     = kept_pair responses)
         (finalizes (new_events w w')) /\
  (forall rs resp, kept_pair (rs ++ [resp]) = default (kept_pair rs) (supplied_pair resp)) /\
  ((omap supplied_pair responses = [] /\ kept_pair responses = (JNull, JNull)) \/
   (exists req status items,
       req ∈ uploads (new_events w w') /\
       http_upload env req = Response status (inr (JDict items)) /\
       (status < 400)%Z /\
       dict_get "package" items = Some (kept_pair responses).1 /\
       dict_get "destination" items = Some (kept_pair responses).2)).
Proof.
  intros Hw w' responses. split; [|split; [apply kept_pair_snoc|]].
  - destruct (coordinator_events env host id ssl method params w files Hw)
      as (_ & ups & ssh_evs & fin_evs & Hev & Hups & Hssh & Hfin).
    unfold w'. rewrite (new_events_app _ _ _ Hev), !finalizes_app, (finalizes_uploads _ _ Hups).
    destruct Hssh as [-> | [argv ->]], Hfin as [-> | ->]; cbn; auto.
    all: constructor; [|done]; cbn; by destruct (kept_pair _).
  - unfold kept_pair.
    destruct (last (omap supplied_pair responses)) as [[p d]|] eqn:Hlast.
    + right. apply last_Some_elem_of in Hlast.
      apply list_elem_of_omap in Hlast as (resp & Hresp & Hpair).
      destruct resp as [e|[| | | | |items]]; try done.
      unfold supplied_pair in Hpair. cbn [mbind option_bind] in Hpair.
      destruct (dict_get "package" items) as [p'|] eqn:Hp; [|done].
      destruct (dict_get "destination" items) as [d'|] eqn:Hd; [|done].
      cbn in Hpair. injection Hpair as -> ->.
      apply list_elem_of_fmap in Hresp as (task & Htask & Hin).
      destruct (task_success _ _ _ _ _ _ Hin (eq_sym Htask))
        as (req & status & Hreq & Hup & Hst).
      exists req, status, items. repeat split; try done.
      unfold w'. rewrite (coordinator_uploads env host id ssl method params w files Hw).
      rewrite <- (coordinator_tasks_requests env). apply list_elem_of_omap.
      by exists task.
    + left. split; [|done]. by apply last_None in Hlast.
Qed.

(** C6. Whatever the chunk uploads come to, each of them is attempted
    (no failure cancels a sibling) and each exception is caught and
    logged; no failure aborts the run: when the remote unpack step, if
    there is one, does not stop the run, the finalize request is sent,
    also when every upload has failed, and the run ends the way the
    finalize request does. *)
Theorem C6_upload_failures_do_not_abort (host id : string) (ssl : bool)
    (method : string) (params : option SshParams) (w : World)
    (files : gmap string bytes) :
  staging w = Some files ->
  (forall w1, (unpack_step env method params w1).1 = Ok tt) ->
  let r := async_upload_chunks env host id ssl method params w in
  let responses := coordinator_responses env files host id ssl in
  uploads (new_events w r.2) ≡ₚ coordinator_requests files host id ssl /\
  Forall (fun resp => match resp with
                      | inl e => LogUploadError e ∈ new_log w r.2
                      | inr _ => True
                      end) responses /\
  (exists req, finalizes (new_events w r.2) = [req] /\
               r.1 = (finalize_outcome env req).1).
Proof.
  intros Hw Hpass r responses. split; [by apply coordinator_uploads|].
  unfold r. rewrite (async_upload_chunks_run env host id ssl method params w files Hw).
  fold (coordinator_responses env files host id ssl). fold responses.
  rewrite coordinator_tasks_requests.
  set (ups := completion env (EvUpload <$> coordinator_requests files host id ssl)).
  assert (Hups : ups ≡ₚ EvUpload <$> coordinator_requests files host id ssl)
    by apply sched_perm.
  set (pair := kept_pair _). set (w1 := mkWorld _ _ _).
  destruct (unpack_step_shape env method params w1) as (_ & [lg Hlog] & Htr).
  specialize (Hpass w1). unfold mbind, M_bind.
  destruct (unpack_step env method params w1) as [[[]|c|e] w2]; cbn [fst snd] in *;
    [|done..].
  rewrite finalize_step_run. set (req := mkFinalize _ _ _).
  unfold finalize_with. cbn [fst snd]. split.
  - apply Forall_forall. intros [e|v] Hresp; [|done].
    unfold new_log. cbn [log]. rewrite Hlog. subst w1. cbn [log].
    rewrite <- !app_assoc, drop_app_length.
    apply elem_of_app. left. apply list_elem_of_fmap. by exists (inl e).
  - exists req. split; [|done].
    destruct Htr as [Htr | [argv Htr]]; rewrite Htr; subst w1; cbn [trace];
      rewrite <- !app_assoc, new_events_mk, !finalizes_app;
      by rewrite (finalizes_uploads _ _ Hups).
Qed.

End CoordinatorClaims.

Section EmptyChunkSet.
Context `{PyLib} (env : Env).

(** C5, amended. When the staging directory holds no chunk file the
    coordinator attempts no upload and reports nothing: it goes on as
    in any run, to the remote unpack step if there is one and to the
    finalize request, which it sends with null package and null
    destination; without ssh parameters the run is that one request,
    and it ends the way the request does, normally if the request
    succeeds. *)
Theorem C5_no_chunks_finalizes_with_nulls (host id : string) (ssl : bool)
    (method : string) (params : option SshParams) (w : World)
    (files : gmap string bytes) :
  staging w = Some files ->
  chunk_files_of files = [] ->
  let r := async_upload_chunks env host id ssl method params w in
  let req := mkFinalize (build_finalize_endpoint host)
               (mkBody id JNull JNull method) ssl in
  r = (unpack_step env method params;;
       finalize_step env (build_finalize_endpoint host) id JNull JNull method ssl) w /\
  uploads (new_events w r.2) = [] /\
  Forall (eq req) (finalizes (new_events w r.2)) /\
  (params = None ->
   new_events w r.2 = [EvFinalize req] /\
   r.1 = (finalize_outcome env req).1 /\
   new_log w r.2 = (finalize_outcome env req).2).
Proof.
  intros Hw Hnil r req.
  assert (Hrun : r = (unpack_step env method params;;
                      finalize_step env (build_finalize_endpoint host) id
                        JNull JNull method ssl) w).
  { unfold r.
    rewrite (async_upload_chunks_run env host id ssl method params w files Hw).
    unfold coordinator_tasks. rewrite Hnil. cbn [imap omap list_omap fmap list_fmap].
    rewrite (proj1 (Permutation_nil_r _) (sched_perm (completion env) [])).
    rewrite !app_nil_r, <- Hw. by destruct w. }
  split; [exact Hrun|].
  assert (Hreqs : coordinator_requests files host id ssl = [])
    by (unfold coordinator_requests; by rewrite Hnil).
  split; [|split].
  - apply Permutation_nil_r. unfold r.
    by rewrite (coordinator_uploads env host id ssl method params w files Hw), Hreqs.
  - destruct (coordinator_events env host id ssl method params w files Hw)
      as (_ & ups & ssh_evs & fin_evs & Hev & Hups & Hssh & Hfin).
    fold r in Hev. rewrite (new_events_app _ _ _ Hev), !finalizes_app, (finalizes_uploads _ _ Hups).
    unfold coordinator_responses, coordinator_tasks in Hfin. rewrite Hnil in Hfin.
    destruct Hssh as [-> | [argv ->]], Hfin as [-> | ->]; cbn; auto.
  - intros ->. rewrite Hrun. unfold unpack_step, mbind, M_bind.
    replace (if String.eqb (py_upper method) "SSH" then mret tt else mret tt)
      with (mret tt : M unit) by (by destruct (String.eqb _ _)).
    unfold mret, M_ret. rewrite finalize_step_run. fold req.
    unfold finalize_with. cbn [fst snd]. rewrite new_events_mk.
    unfold new_log. cbn [log]. by rewrite drop_app_length.
Qed.

End EmptyChunkSet.

Lemma C5_no_chunks_finalizes_with_nulls_witness :
  staging Sample.staged_empty = Some ∅ /\
  chunk_files_of ∅ = [] /\
  let r := async_upload_chunks Sample.env "https://example.org" "id-1" false
             "HTTP" None Sample.staged_empty in
  let req := mkFinalize (build_finalize_endpoint "https://example.org")
               (mkBody "id-1" JNull JNull "HTTP") false in
  r = (unpack_step Sample.env "HTTP" None;;
       finalize_step Sample.env (build_finalize_endpoint "https://example.org")
         "id-1" JNull JNull "HTTP" false) Sample.staged_empty /\
  uploads (new_events Sample.staged_empty r.2) = [] /\
  Forall (eq req) (finalizes (new_events Sample.staged_empty r.2)) /\
  ((None : option SshParams) = None ->
   new_events Sample.staged_empty r.2 = [EvFinalize req] /\
   r.1 = (finalize_outcome Sample.env req).1 /\
   new_log Sample.staged_empty r.2 = (finalize_outcome Sample.env req).2).
Proof.
  split; [reflexivity|]. split; [reflexivity|].
  apply (C5_no_chunks_finalizes_with_nulls Sample.env "https://example.org" "id-1"
           false "HTTP" None Sample.staged_empty ∅); reflexivity.
Defined.

(** C5 as stated fails on a staging directory with no chunk file: the
    coordinator sends the finalize request with null package and null
    destination, logs the deployment as initiated and nothing else, and
    returns normally (exit status 0). *)
Lemma C5_counterexample :
  let r := async_upload_chunks Sample.env "https://example.org" "id-1" false
             "HTTP" None Sample.staged_empty in
  chunk_files_of ∅ = [] /\
  r.1 = Ok tt /\
  exit_status r.1 = 0%Z /\
  trace r.2 = [EvFinalize (mkFinalize "https://example.org/wp-json/ziploy/v1/ziploy"
                             (mkBody "id-1" JNull JNull "HTTP") false)] /\
  log r.2 = [LogDeployInitiated (JDict [("status", JStr "started")])].
Proof. vm_compute. repeat split; reflexivity. Qed.

Lemma C6_upload_failures_do_not_abort_witness :
  staging Sample.staged = Some Sample.two_chunks /\
  (forall w1, (unpack_step Sample.env_refused "HTTP" None w1).1 = Ok tt) /\
  let r := async_upload_chunks Sample.env_refused "https://example.org" "id-1" false
             "HTTP" None Sample.staged in
  let responses := coordinator_responses Sample.env_refused Sample.two_chunks
                     "https://example.org" "id-1" false in
  uploads (new_events Sample.staged r.2)
    ≡ₚ coordinator_requests Sample.two_chunks "https://example.org" "id-1" false /\
  Forall (fun resp => match resp with
                      | inl e => LogUploadError e ∈ new_log Sample.staged r.2
                      | inr _ => True
                      end) responses /\
  (exists req, finalizes (new_events Sample.staged r.2) = [req] /\
               r.1 = (finalize_outcome Sample.env_refused req).1).
Proof.
  split; [reflexivity|]. split; [intros w1; reflexivity|].
  apply (C6_upload_failures_do_not_abort Sample.env_refused "https://example.org"
           "id-1" false "HTTP" None Sample.staged Sample.two_chunks);
    [reflexivity | intros w1; reflexivity].
Defined.

Lemma C7_pair_of_last_acknowledgement_witness :
  staging Sample.staged = Some Sample.two_chunks /\
  let w' := (async_upload_chunks Sample.env "https://example.org" "id-1" false
               "HTTP" None Sample.staged).2 in
  let responses := coordinator_responses Sample.env Sample.two_chunks
                     "https://example.org" "id-1" false in
  Forall (fun req => (fin_package (fz_body req), fin_destination (fz_body req))
                     = kept_pair responses)
         (finalizes (new_events Sample.staged w')) /\
  (forall rs resp, kept_pair (rs ++ [resp]) = default (kept_pair rs) (supplied_pair resp)) /\
  ((omap supplied_pair responses = [] /\ kept_pair responses = (JNull, JNull)) \/
   (exists req status items,
       req ∈ uploads (new_events Sample.staged w') /\
       http_upload Sample.env req = Response status (inr (JDict items)) /\
       (status < 400)%Z /\
       dict_get "package" items = Some (kept_pair responses).1 /\
       dict_get "destination" items = Some (kept_pair responses).2)).
Proof.
  split; [reflexivity|].
  apply (C7_pair_of_last_acknowledgement Sample.env "https://example.org" "id-1"
           false "HTTP" None Sample.staged Sample.two_chunks); reflexivity.
Defined.

(** C7 as stated fails when an acknowledgement holds both keys with null
    values: the first chunk's acknowledgement names package and
    destination, the last chunk's carries null for both; the most
    recently seen non-null pair is the first one, and the finalize request
    carries null and null. *)
Lemma C7_counterexample :
  let w' := (async_upload_chunks Sample.env_null "https://example.org" "id-1" false
               "HTTP" None Sample.staged).2 in
  let responses := coordinator_responses Sample.env_null Sample.two_chunks
                     "https://example.org" "id-1" false in
  responses = [inr (JDict [("package", JStr "pkg-1");
                           ("destination", JStr "/var/www/site")]);
               inr (JDict [("package", JNull); ("destination", JNull)])] /\
  most_recent_nonnull_pair responses = (JStr "pkg-1", JStr "/var/www/site") /\
  fz_body <$> finalizes (trace w') = [mkBody "id-1" JNull JNull "HTTP"].
Proof. vm_compute. repeat split; reflexivity. Qed.

(** ** Whole runs *)

Section Invariants.

(** A relation between the worlds before and after that every step of a
    computation respects is respected by the computation. *)
Lemma bind_rel {A B} (R : relation World) `{!PreOrder R}
    (m : M A) (f : A -> M B) :
  (forall w, R w (m w).2) -> (forall a w, R w (f a w).2) ->
  forall w, R w ((m ≫= f) w).2.
Proof.
  intros Hm Hf w. unfold mbind, M_bind. specialize (Hm w).
  destruct (m w) as [[a|c|e] w1]; cbn [snd] in *; [|done..].
  by etrans.
Qed.

Lemma bind_inv_ok {A B} (m : M A) (f : A -> M B) w b w' :
  (m ≫= f) w = (Ok b, w') ->
  exists a w1, m w = (Ok a, w1) /\ f a w1 = (Ok b, w').
Proof.
  unfold mbind, M_bind. destruct (m w) as [[a|c|e] w1]; [|done..].
  intros Hf. by exists a, w1.
Qed.

#[global] Instance keeps_staging_preorder : PreOrder keeps_staging.
Proof.
  split.
  - by intros w Hw.
  - intros w1 w2 w3 H12 H23 Hw. destruct (H12 Hw) as [Hw2 Ht2].
    destruct (H23 Hw2) as [Hw3 Ht3]. split; [done|congruence].
Qed.

Lemma logging_keeps r w : keeps_staging w (logging r w).2.
Proof. by intros Hw. Qed.

Lemma sys_exit_keeps {A} c w : keeps_staging w (@sys_exit A c w).2.
Proof. by intros Hw. Qed.

Lemma write_file_keeps name data w : keeps_staging w (write_file name data w).2.
Proof.
  intros [files Hw]. by rewrite (write_file_run name data w files Hw).
Qed.

Lemma read_file_keeps name w : keeps_staging w (read_file name w).2.
Proof.
  intros Hw. unfold read_file, get_staging, mbind, M_bind.
  by case_match.
Qed.

Lemma remove_file_keeps name w : keeps_staging w (remove_file name w).2.
Proof.
  intros [files Hw]. unfold remove_file, get_staging, set_staging, mbind, M_bind.
  rewrite Hw. destruct (decide _); cbn; by rewrite ?Hw.
Qed.

Lemma listdir_keeps w : keeps_staging w (listdir w).2.
Proof.
  intros [files Hw]. by rewrite (listdir_run w files Hw).
Qed.

Lemma split_loop_keeps size fuel f idx w :
  keeps_staging w (split_loop size fuel f idx w).2.
Proof.
  intros [files Hw]. by rewrite (split_loop_run size fuel f idx w files Hw).
Qed.

Lemma try_except_keeps {A} (body : M A) (handler : Exn -> M A) w :
  (forall w, keeps_staging w (body w).2) ->
  (forall e w, keeps_staging w (handler e w).2) ->
  keeps_staging w (try_except body handler w).2.
Proof.
  intros Hb Hh. unfold try_except. specialize (Hb w).
  destruct (body w) as [[a|c|e] w1]; cbn [snd] in *; [done..|].
  etrans; [exact Hb|apply Hh].
Qed.

End Invariants.

Lemma mret_keeps {A} (a : A) w : keeps_staging w ((mret a : M A) w).2.
Proof. by intros Hw. Qed.

Lemma raise_keeps {A} e w : keeps_staging w (@raise A e w).2.
Proof. by intros Hw. Qed.

(** Steps that keep the staging directory, composed. *)
Ltac keeps :=
  repeat first
    [ apply logging_keeps | apply sys_exit_keeps | apply mret_keeps | apply raise_keeps
    | apply write_file_keeps | apply read_file_keeps | apply remove_file_keeps
    | apply listdir_keeps | apply split_loop_keeps
    | apply (bind_rel keeps_staging); [intros ?w | intros ?a ?w]
    | apply try_except_keeps; [intros ?w | intros ?e ?w]
    | match goal with
      | |- keeps_staging _ (match ?x with _ => _ end _).2 => destruct x
      | |- keeps_staging _ ((if ?b then _ else _) _).2 => destruct b
      end ].

Section GenerateChunksShape.
Context `{PyLib} (env : Env).

Local Opaque chunk_size.

(** However it ends, [generate_chunks] has created the staging
    directory and run the archiver, and nothing else shows in the
    trace. *)
Lemma generate_chunks_shape w :
  is_Some (staging (generate_chunks env w).2) /\
  trace (generate_chunks env w).2 = (trace w ++ [EvZip (zip_command env)])%list.
Proof.
  unfold generate_chunks.
  do 3 (erewrite bind_ok by reflexivity).
  set (w1 := mkWorld _ _ _).
  assert (Hw1 : is_Some (staging w1)) by (by eexists).
  change (trace w ++ [EvZip (zip_command env)])%list with (trace w1).
  revert Hw1. generalize w1. clear w1. intros w1 Hw1.
  match goal with
  | |- is_Some (staging ?r) /\ _ => enough (Hk : keeps_staging w1 r) by (by apply Hk)
  end.
  keeps.
Qed.

End GenerateChunksShape.

Section MainRuns.
Context `{PyLib} (env : Env).

#[global] Instance only_logged_preorder : PreOrder only_logged.
Proof.
  split.
  - by intros w.
  - intros w1 w2 w3 [Hs12 Ht12] [Hs23 Ht23]. split; congruence.
Qed.

#[global] Instance unverified_since_preorder : PreOrder unverified_since.
Proof.
  split.
  - intros w. exists []. by rewrite app_nil_r.
  - intros w1 w2 w3 (evs1 & Ht1 & Hf1) (evs2 & Ht2 & Hf2).
    exists (evs1 ++ evs2)%list. split.
    + by rewrite Ht2, Ht1, app_assoc.
    + by apply Forall_app.
Qed.

Lemma only_logged_unverified w w' : only_logged w w' -> unverified_since w w'.
Proof. intros [_ Ht]. exists []. by rewrite app_nil_r. Qed.

Ltac only_logs :=
  repeat first
    [ done
    | apply (bind_rel only_logged); [intros ?w | intros ?a ?w]
    | match goal with
      | |- only_logged _ ((if ?b then _ else _) _).2 => destruct b
      | |- only_logged _ (match ?x with _ => _ end _).2 => destruct x
      end ].

Lemma validate_args_only_logs args w : only_logged w (validate_args args w).2.
Proof. unfold validate_args. only_logs. Qed.

Lemma parse_ssh_config_only_logs args w : only_logged w (parse_ssh_config args w).2.
Proof.
  unfold parse_ssh_config.
  destruct (py_strip <$> ssh_config args) as [|u [|h [|k [|k' l]]]]; only_logs.
Qed.

Lemma cleanup_run w :
  exists lg, cleanup w = (Ok tt, mkWorld None (trace w) (log w ++ lg)).
Proof.
  unfold cleanup, get_staging, set_staging, logging, mbind, M_bind.
  destruct w as [[files|] tr lg]; cbn.
  - by eexists.
  - exists []. by rewrite app_nil_r.
Qed.

Lemma async_upload_chunks_no_staging host id ssl method params w :
  staging w = None ->
  (async_upload_chunks env host id ssl method params w).2 = w.
Proof.
  intros Hw. unfold async_upload_chunks, get_chunk_files, listdir.
  unfold mbind, M_bind, get_staging, raise. by rewrite Hw.
Qed.

(** Every request of the coordinator is issued with the [verify_ssl] it
    was called with. *)
Lemma coordinator_unverified host id method params w :
  unverified_since w (async_upload_chunks env host id false method params w).2.
Proof.
  destruct (staging w) as [files|] eqn:Hw.
  - destruct (coordinator_events env host id false method params w files Hw)
      as (_ & ups & ssh_evs & fin_evs & Hev & Hups & Hssh & Hfin).
    exists (ups ++ ssh_evs ++ fin_evs)%list. split; [done|].
    repeat apply Forall_app_2.
    + rewrite Hups. apply Forall_fmap.
      eapply Forall_impl; [apply coordinator_requests_ssl|]. by intros req.
    + by destruct Hssh as [-> | [argv ->]]; repeat constructor.
    + by destruct Hfin as [-> | ->]; repeat constructor.
  - rewrite async_upload_chunks_no_staging by done. reflexivity.
Qed.

Lemma parse_step_only_logs args w :
  only_logged w
    ((if String.eqb (py_upper (ziployMethod args)) "SSH"
      then SSH_CONFIG ← parse_ssh_config args; mret (Some SSH_CONFIG)
      else mret None) w).2.
Proof.
  destruct (String.eqb _ _); [|done].
  apply (bind_rel only_logged); [apply parse_ssh_config_only_logs|done].
Qed.

(** C10. In every run started from [main], whatever the command line,
    every HTTP request (each chunk upload and the finalize request) is
    issued with certificate verification disabled. *)
Theorem C10_verification_always_disabled (args : Args) (w : World) :
  Forall verification_disabled (new_events w (main env args w).2) /\
  Forall (fun req => up_ssl req = false) (uploads (new_events w (main env args w).2)) /\
  Forall (fun req => fz_ssl req = false) (finalizes (new_events w (main env args w).2)).
Proof.
  assert (Hmain : unverified_since w (main env args w).2).
  { unfold main.
    apply (bind_rel unverified_since);
      [intros w1; apply only_logged_unverified, validate_args_only_logs|intros _ w1].
    apply (bind_rel unverified_since);
      [intros w2; apply only_logged_unverified, parse_step_only_logs|intros _ w2].
    apply (bind_rel unverified_since); [intros w3|intros _ w3].
    { exists [EvZip (zip_command env)]. split; [apply generate_chunks_shape|].
      by repeat constructor. }
    apply (bind_rel unverified_since);
      [intros w4; apply coordinator_unverified|intros _ w4].
    apply (bind_rel unverified_since); [intros w5|intros _ w5].
    { destruct (cleanup_run w5) as [lg ->]. exists []. by rewrite app_nil_r. }
    exists []. by rewrite app_nil_r. }
  destruct Hmain as (evs & Htr & Hevs). rewrite (new_events_app _ _ _ Htr).
  split; [done|]. split.
  - apply Forall_forall. intros req (ev & Hev & Hreq)%list_elem_of_omap.
    rewrite Forall_forall in Hevs. specialize (Hevs ev Hev).
    destruct ev; try done. by injection Hreq as <-.
  - apply Forall_forall. intros req (ev & Hev & Hreq)%list_elem_of_omap.
    rewrite Forall_forall in Hevs. specialize (Hevs ev Hev).
    destruct ev; try done. by injection Hreq as <-.
Qed.

(** C9, amended. At the end of every run that is not cut short by a
    fatal error the staging directory is removed. A run that a fatal
    error ends after it has started on the archive (archiver failure,
    splitter failure, finalize failure) stops before the cleanup and
    leaves the staging directory in place. *)
Theorem C9_cleanup_only_at_normal_end (args : Args) (w : World) :
  ((main env args w).1 = Ok tt -> staging (main env args w).2 = None) /\
  ((main env args w).1 <> Ok tt ->
   new_events w (main env args w).2 <> [] ->
   is_Some (staging (main env args w).2)).
Proof.
  remember (main env args w) as r eqn:Hr.
  unfold main, mbind, M_bind in Hr.
  pose proof (validate_args_only_logs args w) as [Hs1 Ht1].
  destruct (validate_args args w) as [[[]|c1|e1] w1]; subst r; cbn [fst snd] in *;
    [|split; [done|intros _ Hev; exfalso; apply Hev, new_events_app;
                   rewrite app_nil_r; congruence]..].
  pose proof (parse_step_only_logs args w1) as [Hs2 Ht2].
  unfold mbind, M_bind in Hs2, Ht2.
  match type of Hs2 with
  | staging (?step).2 = _ => destruct step as [[cfg|c2|e2] w2]
  end; cbn [fst snd] in *;
    [|split; [done|intros _ Hev; exfalso; apply Hev, new_events_app;
                   rewrite app_nil_r; congruence]..].
  pose proof (generate_chunks_shape env w2) as [[files Hs3] Ht3].
  destruct (generate_chunks env w2) as [[[]|c3|e3] w3]; cbn [fst snd] in *;
    [|split; [done|by eexists]..].
  pose proof (coordinator_events env (ziployRemoteHost args) (ziployId args)
                false "HTTP" None w3 files Hs3) as [Hs4 _].
  destruct (async_upload_chunks env _ _ _ _ _ w3) as [[[]|c4|e4] w4];
    cbn [fst snd] in *; [|split; [done|by eexists]..].
  destruct (cleanup_run w4) as [lg ->]. cbn. split; [done|]. by intros [].
Qed.

End MainRuns.

(** C9 as stated fails when the archiver fails: the run exits with
    status 1 and the staging directory, created before the archiver is
    run, is still there. *)
Lemma C9_counterexample :
  let r := main Sample.env_zip_fails Sample.args_ssh Sample.world0 in
  r.1 = Exit 1 /\ staging r.2 = Some ∅ /\
  log r.2 = [LogValidated; LogGenerating; LogZipError 12].
Proof. vm_compute. repeat split; reflexivity. Qed.

Lemma C9_cleanup_only_at_normal_end_witness :
  let r := main Sample.env Sample.args_ssh Sample.world0 in
  let r' := main Sample.env_zip_fails Sample.args_ssh Sample.world0 in
  r.1 = Ok tt /\ r'.1 <> Ok tt /\ new_events Sample.world0 r'.2 <> [] /\
  staging r.2 = None /\ is_Some (staging r'.2).
Proof.
  assert (H1 : (main Sample.env Sample.args_ssh Sample.world0).1 = Ok tt)
    by (vm_compute; reflexivity).
  assert (H2 : (main Sample.env_zip_fails Sample.args_ssh Sample.world0).1 <> Ok tt)
    by (vm_compute; discriminate).
  assert (H3 : new_events Sample.world0
                 (main Sample.env_zip_fails Sample.args_ssh Sample.world0).2 <> [])
    by (vm_compute; discriminate).
  destruct (C9_cleanup_only_at_normal_end Sample.env Sample.args_ssh Sample.world0)
    as [Hok _].
  destruct (C9_cleanup_only_at_normal_end Sample.env_zip_fails Sample.args_ssh
              Sample.world0) as [_ Hab].
  split; [exact H1|]. split; [exact H2|]. split; [exact H3|].
  split; [exact (Hok H1)|exact (Hab H2 H3)].
Defined.

(** * Further properties of the program *)

(** ** Endpoints and exclusion patterns *)

Section Endpoints.

Lemma append_cons c s t : String c s ++ t = String c (s ++ t).
Proof. reflexivity. Qed.

Lemma append_nil_r s : s ++ "" = s.
Proof. induction s as [|c s IH]; [done|]. by rewrite append_cons, IH. Qed.

Lemma append_assoc s1 s2 s3 : s1 ++ (s2 ++ s3) = (s1 ++ s2) ++ s3.
Proof. induction s1 as [|c s1 IH]; [done|]. by rewrite !append_cons, IH. Qed.

Lemma rstrip_slash_snoc s : PyStr.rstrip_slash (s ++ "/") = PyStr.rstrip_slash s.
Proof.
  induction s as [|c s IH]; [done|].
  rewrite append_cons. cbn [PyStr.rstrip_slash]. by rewrite IH.
Qed.

Lemma rstrip_slash_slashes s n :
  PyStr.rstrip_slash (s ++ slashes n) = PyStr.rstrip_slash s.
Proof.
  revert s. induction n as [|n IH]; intros s.
  - by rewrite append_nil_r.
  - change (slashes (S n)) with ("/" ++ slashes n).
    by rewrite append_assoc, IH, rstrip_slash_snoc.
Qed.

Lemma rstrip_slash_decompose s :
  exists n, s = PyStr.rstrip_slash s ++ slashes n.
Proof.
  induction s as [|c s [n IH]]; [by exists 0%nat|].
  cbn [PyStr.rstrip_slash].
  destruct (PyStr.rstrip_slash s) as [|c' r] eqn:Hr.
  - destruct (Ascii.eqb_spec c "/") as [->|Hc].
    + exists (S n). change ("" ++ slashes (S n)) with (String "/" (slashes n)).
      f_equal. by rewrite IH at 1.
    + exists n. rewrite append_cons. f_equal. by rewrite IH at 1.
  - exists n. rewrite append_cons. f_equal. exact IH.
Qed.

Lemma rstrip_slash_no_slash s : ends_with_slash (PyStr.rstrip_slash s) = false.
Proof.
  induction s as [|c s IH]; [done|].
  cbn [PyStr.rstrip_slash].
  destruct (PyStr.rstrip_slash s) as [|c' r] eqn:Hr.
  - destruct (Ascii.eqb_spec c "/") as [->|Hc]; [done|].
    simpl. by apply Ascii.eqb_neq.
  - exact IH.
Qed.

(** X1. The upload and finalize endpoints do not depend on trailing
    slashes of the remote host: the host is cut back to a base that
    does not end with a slash, from which only slashes were removed,
    and the two fixed paths are appended to the same base. *)
Theorem X1_endpoints_ignore_trailing_slashes (host : string) (n : nat) :
  build_api_endpoint (host ++ slashes n) = build_api_endpoint host /\
  build_finalize_endpoint (host ++ slashes n) = build_finalize_endpoint host /\
  exists base k,
    host = base ++ slashes k /\
    ends_with_slash base = false /\
    build_api_endpoint host = base ++ "/wp-json/ziploy/v1/update" /\
    build_finalize_endpoint host = base ++ "/wp-json/ziploy/v1/ziploy".
Proof.
  unfold build_api_endpoint, build_finalize_endpoint.
  rewrite rstrip_slash_slashes. split; [done|]. split; [done|].
  destruct (rstrip_slash_decompose host) as [k Hk].
  exists (PyStr.rstrip_slash host), k. split; [done|].
  split; [apply rstrip_slash_no_slash|done].
Qed.

End Endpoints.

Section IgnorePatterns.
Context `{PyLib} (env : Env).

Lemma filter_sublist {A} (p : A -> bool) (l : list A) :
  List.filter p l `sublist_of` l.
Proof.
  induction l as [|x l IH]; [done|]. simpl.
  destruct (p x); by constructor.
Qed.


End IgnorePatterns.


(** ** The command line *)

Section CommandLine.
Context `{PyLib} (env : Env).

Lemma validate_args_accepts args w :
  urlparse_scheme (ziployRemoteHost args) = "http" \/
  urlparse_scheme (ziployRemoteHost args) = "https" ->
  validate_args args w =
  (Ok tt, mkWorld (staging w) (trace w) (log w ++ [LogValidated])).
Proof.
  intros Hs. unfold validate_args.
  replace (_ || _) with true; [done|].
  symmetry. apply orb_true_iff. by rewrite !String.eqb_eq.
Qed.



Lemma parse_ssh_config_short args w :
  (length (ssh_config args) < 3)%nat -> parse_ssh_config args w = (Exit 2, w).
Proof.
  intros Hlen. unfold parse_ssh_config.
  destruct (ssh_config args) as [|a [|b [|c l]]]; simpl in *; try done. lia.
Qed.

(** X4. With method SSH (in any letter case) and fewer than three ssh
    values the run exits with status 2 right after the validation of
    the host: no archive is built and no request is sent. *)
Theorem X4_short_ssh_config_exits_early (args : Args) (w : World) :
  urlparse_scheme (ziployRemoteHost args) = "http" \/
  urlparse_scheme (ziployRemoteHost args) = "https" ->
  py_upper (ziployMethod args) = "SSH" ->
  (length (ssh_config args) < 3)%nat ->
  main env args w =
  (Exit 2, mkWorld (staging w) (trace w) (log w ++ [LogValidated])).
Proof.
  intros Hs Hm Hlen. unfold main.
  erewrite bind_ok by (by apply validate_args_accepts).
  erewrite bind_exit; [reflexivity|].
  rewrite Hm, String.eqb_refl.
  erewrite bind_exit; [reflexivity|]. by apply parse_ssh_config_short.
Qed.

(** X5. Whenever [parse_ssh_config] returns credentials, it has left
    the world as it was, there are at least three ssh values, and the
    user, host and key it returns are the stripped values and are not
    empty. With exactly three values the port is 22 and the key is the
    third; with more, the third is the port, which passed [isdigit],
    and the key is the fourth. *)
Theorem X5_parsed_ssh_config_is_valid (args : Args) (w w' : World) (cfg : SshConfig) :
  parse_ssh_config args w = (Ok cfg, w') ->
  w' = w /\
  (3 <= length (ssh_config args))%nat /\
  ssh_user cfg <> "" /\ ssh_host cfg <> "" /\ ssh_key cfg <> "" /\
  Some (ssh_user cfg) = py_strip <$> ssh_config args !! 0%nat /\
  Some (ssh_host cfg) = py_strip <$> ssh_config args !! 1%nat /\
  (length (ssh_config args) = 3%nat ->
   ssh_port cfg = 22%nat /\ Some (ssh_key cfg) = py_strip <$> ssh_config args !! 2%nat) /\
  (3 < length (ssh_config args) ->
   (exists port_str, Some port_str = py_strip <$> ssh_config args !! 2%nat /\
                     py_isdigit port_str = true /\
                     ssh_port cfg = Z.to_nat (py_int port_str)) /\
   Some (ssh_key cfg) = py_strip <$> ssh_config args !! 3%nat)%nat.
Proof.
  unfold parse_ssh_config.
  destruct (ssh_config args) as [|a [|b [|c [|d l]]]]; try done.
  - cbn [fmap list_fmap]. unfold mbind, M_bind, parser_error, sys_exit, mret, M_ret.
    destruct (String.eqb_spec (py_strip a) ""); [done|].
    destruct (String.eqb_spec (py_strip b) ""); [done|].
    destruct (String.eqb_spec (py_strip c) ""); [done|].
    intros [= <- <-]. cbn. repeat split; try done; try lia.
  - cbn [fmap list_fmap]. unfold mbind, M_bind, parser_error, sys_exit, mret, M_ret.
    destruct (py_isdigit (py_strip c)) eqn:Hdigit; [|done].
    destruct (String.eqb_spec (py_strip a) ""); [done|].
    destruct (String.eqb_spec (py_strip b) ""); [done|].
    destruct (String.eqb_spec (py_strip d) ""); [done|].
    intros [= <- <-]. cbn. repeat split; try done; try lia.
    by exists (py_strip c).
Qed.


End CommandLine.


Lemma X4_short_ssh_config_exits_early_witness :
  (urlparse_scheme (ziployRemoteHost SampleArgs.args_ssh_short) = "http" \/
   urlparse_scheme (ziployRemoteHost SampleArgs.args_ssh_short) = "https") /\
  py_upper (ziployMethod SampleArgs.args_ssh_short) = "SSH" /\
  (length (ssh_config SampleArgs.args_ssh_short) < 3)%nat /\
  main Sample.env SampleArgs.args_ssh_short Sample.world0 =
  (Exit 2, mkWorld (staging Sample.world0) (trace Sample.world0)
                   (log Sample.world0 ++ [LogValidated])).
Proof.
  assert (H1 : urlparse_scheme (ziployRemoteHost SampleArgs.args_ssh_short) = "http" \/
               urlparse_scheme (ziployRemoteHost SampleArgs.args_ssh_short) = "https")
    by (right; reflexivity).
  assert (H2 : py_upper (ziployMethod SampleArgs.args_ssh_short) = "SSH")
    by reflexivity.
  assert (H3 : (length (ssh_config SampleArgs.args_ssh_short) < 3)%nat)
    by (simpl; lia).
  split; [exact H1|]. split; [exact H2|]. split; [exact H3|].
  exact (X4_short_ssh_config_exits_early Sample.env SampleArgs.args_ssh_short
           Sample.world0 H1 H2 H3).
Defined.

Lemma X5_parsed_ssh_config_is_valid_witness :
  parse_ssh_config SampleArgs.args_ssh_port Sample.world0 =
    (Ok (mkSshConfig "deploy" "example.org" 2222 "id_rsa"), Sample.world0) /\
  ssh_user (mkSshConfig "deploy" "example.org" 2222 "id_rsa") <> "" /\
  ssh_key (mkSshConfig "deploy" "example.org" 2222 "id_rsa") <> "".
Proof.
  assert (Hrun : parse_ssh_config SampleArgs.args_ssh_port Sample.world0 =
                 (Ok (mkSshConfig "deploy" "example.org" 2222 "id_rsa"), Sample.world0))
    by (vm_compute; reflexivity).
  split; [exact Hrun|].
  destruct (X5_parsed_ssh_config_is_valid SampleArgs.args_ssh_port Sample.world0
              Sample.world0 _ Hrun) as (_ & _ & Hu & _ & Hk & _).
  split; [exact Hu|exact Hk].
Defined.

(** ** Exit statuses *)

Lemma bind_exits {A B} (codes : list Z) (m : M A) (f : A -> M B) :
  (forall w, exits_within codes (m w).1) ->
  (forall a w, exits_within codes (f a w).1) ->
  forall w, exits_within codes ((m ≫= f) w).1.
Proof.
  intros Hm Hf w. unfold mbind, M_bind. specialize (Hm w).
  destruct (m w) as [[a|c|e] w1]; cbn [fst] in *; [apply Hf|done..].
Qed.

Lemma try_except_exits {A} (codes : list Z) (body : M A) (handler : Exn -> M A) :
  (forall w, exits_within codes (body w).1) ->
  (forall e w, exits_within codes (handler e w).1) ->
  forall w, exits_within codes (try_except body handler w).1.
Proof.
  intros Hb Hh w. unfold try_except. specialize (Hb w).
  destruct (body w) as [[a|c|e] w1]; cbn [fst] in *; [done..|apply Hh].
Qed.

Lemma split_loop_exits codes size fuel f idx w :
  exits_within codes (split_loop size fuel f idx w).1.
Proof.
  revert f idx w. induction fuel as [|fuel IH]; intros f idx w; [done|].
  simpl. destruct (take size f) as [|b chunk]; [done|].
  apply bind_exits; [|intros _ w1; apply bind_exits; [done|intros _ w2; apply IH]].
  intros w1. unfold write_file, get_staging, mbind, M_bind. cbn.
  by destruct (staging w1).
Qed.

(** Steps that exit with one of [codes] only, composed. *)
Ltac exits :=
  repeat first
    [ apply split_loop_exits
    | apply bind_exits; [intros ?w | intros ?a ?w]
    | apply try_except_exits; [intros ?w | intros ?e ?w]
    | match goal with
      | |- exits_within _ (match ?x with _ => _ end _).1 => destruct x
      | |- exits_within _ ((if ?b then _ else _) _).1 => destruct b
      end
    | by (cbn; repeat constructor)
    | done ].

Section ExitStatus.
Context `{PyLib} (env : Env).

Local Opaque chunk_size.

Lemma primitive_exits codes w :
  (forall r, exits_within codes (logging r w).1) /\
  (forall d, exits_within codes (set_staging d w).1) /\
  (forall evs, exits_within codes (emit evs w).1) /\
  (forall name data, exits_within codes (write_file name data w).1) /\
  (forall name, exits_within codes (read_file name w).1) /\
  (forall name, exits_within codes (remove_file name w).1) /\
  exits_within codes (listdir w).1.
Proof.
  repeat split; try done; intros;
    unfold write_file, read_file, remove_file, listdir, get_staging, set_staging,
      mbind, M_bind, raise, mret, M_ret; cbn; repeat case_match; done.
Qed.

Lemma generate_chunks_exits w : exits_within [1%Z] (generate_chunks env w).1.
Proof.
  unfold generate_chunks. exits; try apply primitive_exits.
Qed.

Lemma ssh_unzip_exits command cfg w :
  exits_within [1%Z] (ssh_unzip env command cfg w).1.
Proof. unfold ssh_unzip. exits. Qed.

Lemma async_upload_chunks_exits host id ssl method params w :
  exits_within [1%Z] (async_upload_chunks env host id ssl method params w).1.
Proof.
  unfold async_upload_chunks, get_chunk_files, gather, unpack_step, finalize_step.
  exits; try apply primitive_exits; try apply ssh_unzip_exits.
  all: try (rewrite for_each_responses; done).
Qed.

Lemma exits_within_weaken {A} (codes codes' : list Z) (o : Outcome A) :
  codes ⊆ codes' -> exits_within codes o -> exits_within codes' o.
Proof. intros Hsub. destruct o; cbn; auto. Qed.

Lemma codes_1 : [1%Z] ⊆ [1%Z; 2%Z].
Proof. intros x ->%list_elem_of_singleton. repeat constructor. Qed.

Lemma codes_2 : [2%Z] ⊆ [1%Z; 2%Z].
Proof. intros x ->%list_elem_of_singleton. repeat constructor. Qed.

Lemma validate_args_exits args w : exits_within [2%Z] (validate_args args w).1.
Proof.
  unfold validate_args, parser_error.
  apply bind_exits; [intros w1|done].
  destruct (_ || _); cbn; by repeat constructor.
Qed.

Lemma parse_ssh_config_exits args w : exits_within [2%Z] (parse_ssh_config args w).1.
Proof.
  unfold parse_ssh_config.
  destruct (py_strip <$> ssh_config args) as [|a [|b [|c [|d l]]]];
    try (cbn; by repeat constructor);
    repeat (apply bind_exits;
              [intros ?w; case_match; cbn; by repeat constructor|intros _ ?w]); done.
Qed.

Lemma main_exits args w : exits_within [1%Z; 2%Z] (main env args w).1.
Proof.
  unfold main.
  apply bind_exits; [intros w1|intros _ w1].
  { eapply exits_within_weaken; [apply codes_2|apply validate_args_exits]. }
  apply bind_exits; [intros w2|intros _ w2].
  { destruct (String.eqb _ _); [|done].
    apply bind_exits; [intros w3|done].
    eapply exits_within_weaken; [apply codes_2|apply parse_ssh_config_exits]. }
  apply bind_exits; [intros w3|intros _ w3].
  { eapply exits_within_weaken; [apply codes_1|apply generate_chunks_exits]. }
  apply bind_exits; [intros w4|intros _ w4].
  { eapply exits_within_weaken; [apply codes_1|apply async_upload_chunks_exits]. }
  apply bind_exits; [intros w5|done].
  by destruct (cleanup_run w5) as [lg ->].
Qed.

(** X7. A run started from [main] ends with status 0, 1 or 2: when it
    exits through [sys.exit] the status is 1 or 2, and an exception
    that nothing catches gives status 1. *)
Theorem X7_exit_status_is_0_1_or_2 (args : Args) (w : World) :
  exits_within [1%Z; 2%Z] (main env args w).1 /\
  exit_status (main env args w).1 ∈ [0%Z; 1%Z; 2%Z].
Proof.
  pose proof (main_exits args w) as Hex. split; [exact Hex|].
  destruct (main env args w).1 as [[]|c|e]; cbn in *; [by repeat constructor| |by repeat constructor].
  apply elem_of_cons in Hex as [-> | ->%list_elem_of_singleton]; by repeat constructor.
Qed.

(** X8. Exit status 2 is the status of the configuration errors alone:
    a run that ends with it has run no process, sent no request and
    left the staging directory as it was. *)
Theorem X8_status_2_means_nothing_done (args : Args) (w : World) :
  (main env args w).1 = Exit 2 ->
  staging (main env args w).2 = staging w /\
  trace (main env args w).2 = trace w /\
  new_events w (main env args w).2 = [].
Proof.
  intros Hexit.
  enough (Hlog : only_logged w (main env args w).2).
  { destruct Hlog as [Hs Ht]. split; [done|]. split; [done|].
    apply new_events_app. by rewrite app_nil_r. }
  revert Hexit. remember (main env args w) as r eqn:Hr.
  unfold main, mbind, M_bind in Hr.
  pose proof (validate_args_only_logs args w) as Hv.
  destruct (validate_args args w) as [[[]|c1|e1] w1]; subst r; cbn [fst snd] in *;
    try done.
  pose proof (parse_step_only_logs args w1) as Hp.
  unfold mbind, M_bind in Hp.
  match type of Hp with
  | only_logged _ (?step).2 => destruct step as [[cfg|c2|e2] w2]
  end; cbn [fst snd] in *; try (intros _; by etrans).
  pose proof (generate_chunks_exits w2) as Hg.
  destruct (generate_chunks env w2) as [[[]|c3|e3] w3]; cbn [fst snd] in *;
    [|intros [= ->]; by apply list_elem_of_singleton in Hg|done].
  pose proof (async_upload_chunks_exits (ziployRemoteHost args) (ziployId args)
                false "HTTP" None w3) as Ha.
  destruct (async_upload_chunks env _ _ _ _ _ w3) as [[[]|c4|e4] w4];
    cbn [fst snd] in *; [|intros [= ->]; by apply list_elem_of_singleton in Ha|done].
  destruct (cleanup_run w4) as [lg ->]. by cbn.
Qed.

End ExitStatus.

Lemma X8_status_2_means_nothing_done_witness :
  (main Sample.env SampleArgs.args_ssh_short Sample.staged).1 = Exit 2 /\
  staging (main Sample.env SampleArgs.args_ssh_short Sample.staged).2 =
    staging Sample.staged /\
  trace (main Sample.env SampleArgs.args_ssh_short Sample.staged).2 =
    trace Sample.staged /\
  new_events Sample.staged
    (main Sample.env SampleArgs.args_ssh_short Sample.staged).2 = [].
Proof.
  assert (Hexit : (main Sample.env SampleArgs.args_ssh_short Sample.staged).1 = Exit 2)
    by (vm_compute; reflexivity).
  split; [exact Hexit|].
  exact (X8_status_2_means_nothing_done Sample.env SampleArgs.args_ssh_short
           Sample.staged Hexit).
Defined.

(** ** More on the Chunk Splitter *)

Section SplitterMore.
Context `{PyLib} (env : Env).

Local Opaque chunk_size.

(** X9. Chunk files never collide: two sequence numbers, also beyond
    999, have the same file name only if they are equal; the sequence
    number can be read back from the digits of the name; every chunk
    name has the prefix the coordinator filters on, and none is the
    name of the archive. *)
Theorem X9_chunk_names_distinct (i j : nat) :
  (chunk_filename i = chunk_filename j <-> i = j) /\
  PyStr.parse_decimal (PyStr.format_03d i) = Some i /\
  PyStr.startswith "_ziploy.zip.z" (chunk_filename i) = true /\
  chunk_filename i <> zip_name.
Proof.
  split; [|split; [apply parse_format|split]].
  - split; [apply (inj chunk_filename)|by intros ->].
  - apply chunk_filename_prefix.
  - apply chunk_filename_not_zip.
Qed.

(** X10. Chunk [k] is the [k]-th stretch of 5 MiB of the archive: the
    bytes from offset [k * C] up to [k * C + C], or up to the end of the
    archive; there is no chunk file from [ceil(S / C)] on. *)
Theorem X10_chunk_is_slice (w : World) (out err : string) (archive : bytes) (k : nat) :
  zip_run env (zip_command env) = mkZip (Completed 0 out err) (Some archive) ->
  exists files,
    staging (generate_chunks env w).2 = Some files /\
    chunk_at files k =
    if (k <? num_chunks archive)%nat
    then Some (take (Z.to_nat chunk_size) (drop (k * Z.to_nat chunk_size) archive))
    else None.
Proof.
  intros Hzip. exists (chunk_dir (split archive)).
  rewrite (generate_chunks_ok env w out err archive Hzip). split; [done|].
  rewrite chunk_dir_lookup, <- split_length.
  destruct (Nat.ltb_spec k (length (split archive))) as [Hlt|Hge].
  - destruct (lookup_lt_is_Some_2 _ _ Hlt) as [chunk Hk]. rewrite Hk. f_equal.
    eapply chunks_lookup; [apply read_size_pos| |exact Hk]. lia.
  - by apply lookup_ge_None_2.
Qed.

(** X11. [generate_chunks] starts from an empty staging directory:
    whatever the directory held before, stale chunks of an earlier run
    included, has no effect on the run. *)
Theorem X11_stale_staging_is_discarded (d : option (gmap string bytes))
    (tr : list Event) (lg : list LogRecord) :
  generate_chunks env (mkWorld d tr lg) = generate_chunks env (mkWorld None tr lg).
Proof.
  unfold generate_chunks.
  rewrite (bind_ok _ _ (mkWorld d tr lg) tt
             (mkWorld d tr (lg ++ [LogGenerating])) eq_refl).
  rewrite (bind_ok _ _ (mkWorld None tr lg) tt
             (mkWorld None tr (lg ++ [LogGenerating])) eq_refl).
  rewrite (bind_ok _ _ (mkWorld d tr (lg ++ [LogGenerating])) tt
             (mkWorld (Some ∅) tr (lg ++ [LogGenerating])) eq_refl).
  by rewrite (bind_ok _ _ (mkWorld None tr (lg ++ [LogGenerating])) tt
                (mkWorld (Some ∅) tr (lg ++ [LogGenerating])) eq_refl).
Qed.

(** X12. When the archiver returns a non-zero status the run exits
    with status 1 after logging the error; nothing is split, even if
    the archiver left a file behind, and the staging directory stays. *)
Theorem X12_archiver_failure (w : World) (rc : Z) (out err : string)
    (left_behind : option bytes) :
  zip_run env (zip_command env) = mkZip (Completed rc out err) left_behind ->
  rc <> 0%Z ->
  generate_chunks env w =
  (Exit 1,
   mkWorld (Some (match left_behind with
                  | Some data => {[ zip_name := data ]}
                  | None => ∅
                  end))
           (trace w ++ [EvZip (zip_command env)])
           (log w ++ [LogGenerating; LogZipError rc])).
Proof.
  intros Hzip Hrc. apply Z.eqb_neq in Hrc. unfold generate_chunks.
  do 3 (erewrite bind_ok by reflexivity). rewrite Hzip, Hrc.
  erewrite bind_exit; [reflexivity|].
  destruct left_behind as [data|].
  - erewrite bind_ok by (by apply write_file_run).
    erewrite bind_ok by reflexivity. cbn. by rewrite <- app_assoc.
  - erewrite bind_ok by reflexivity.
    erewrite bind_ok by reflexivity. cbn. by rewrite <- app_assoc.
Qed.

(** X15. When the archiver cannot be started at all, the exception is
    not the one [generate_chunks] catches: it escapes, nothing is
    logged about it, and the process ends with status 1. *)
Theorem X15_archiver_not_started (w : World) (e : Exn) (left_behind : option bytes) :
  zip_run env (zip_command env) = mkZip (SpawnError e) left_behind ->
  generate_chunks env w =
  (Raise e,
   mkWorld (Some ∅) (trace w ++ [EvZip (zip_command env)])
           (log w ++ [LogGenerating])) /\
  exit_status (generate_chunks env w).1 = 1%Z.
Proof.
  intros Hzip. unfold generate_chunks.
  do 3 (erewrite bind_ok by reflexivity). rewrite Hzip.
  by erewrite bind_raise by reflexivity.
Qed.


(** X14. A zero-byte archive is split into no chunk at all: the run
    goes on normally with an empty staging directory and logs that the
    package was split into 0 chunks. *)
Theorem X14_empty_archive_gives_no_chunk (w : World) (out err : string) :
  zip_run env (zip_command env) = mkZip (Completed 0 out err) (Some []) ->
  generate_chunks env w =
  (Ok tt,
   mkWorld (Some ∅) (trace w ++ [EvZip (zip_command env)])
           (log w ++ [LogGenerating; LogPackageCreated; LogSplitting;
                      LogDeletedZip (path_join output_folder zip_name);
                      LogSplitInto 0])).
Proof.
  intros Hzip. rewrite (generate_chunks_ok env w out err [] Hzip).
  assert (Hsplit : split [] = []) by (unfold split; simpl; by rewrite take_nil).
  by rewrite Hsplit.
Qed.

End SplitterMore.

Lemma X10_chunk_is_slice_witness :
  zip_run Sample.env (zip_command Sample.env) =
    mkZip (Completed 0 "" "") (Some Sample.archive3) /\
  exists files,
    staging (generate_chunks Sample.env Sample.world0).2 = Some files /\
    chunk_at files 0 =
    if (0 <? num_chunks Sample.archive3)%nat
    then Some (take (Z.to_nat chunk_size) (drop (0 * Z.to_nat chunk_size) Sample.archive3))
    else None.
Proof.
  split; [reflexivity|].
  exact (X10_chunk_is_slice Sample.env Sample.world0 "" "" Sample.archive3 0 eq_refl).
Defined.

Lemma X12_archiver_failure_witness :
  zip_run Sample.env_zip_fails (zip_command Sample.env_zip_fails) =
    mkZip (Completed 12 "" "zip error: Nothing to do!") None /\
  12%Z <> 0%Z /\
  generate_chunks Sample.env_zip_fails Sample.staged =
  (Exit 1,
   mkWorld (Some ∅)
           (trace Sample.staged ++ [EvZip (zip_command Sample.env_zip_fails)])
           (log Sample.staged ++ [LogGenerating; LogZipError 12])).
Proof.
  split; [reflexivity|]. split; [discriminate|].
  apply (X12_archiver_failure Sample.env_zip_fails Sample.staged 12 ""
           "zip error: Nothing to do!" None); [reflexivity|discriminate].
Defined.


Lemma X14_empty_archive_gives_no_chunk_witness :
  zip_run SampleEnvs.env_empty_archive (zip_command SampleEnvs.env_empty_archive) =
    mkZip (Completed 0 "" "") (Some []) /\
  generate_chunks SampleEnvs.env_empty_archive Sample.world0 =
  (Ok tt,
   mkWorld (Some ∅)
           (trace Sample.world0 ++ [EvZip (zip_command SampleEnvs.env_empty_archive)])
           (log Sample.world0 ++ [LogGenerating; LogPackageCreated; LogSplitting;
                                  LogDeletedZip (path_join output_folder zip_name);
                                  LogSplitInto 0])).
Proof.
  split; [reflexivity|].
  exact (X14_empty_archive_gives_no_chunk SampleEnvs.env_empty_archive Sample.world0
           "" "" eq_refl).
Defined.

Lemma X15_archiver_not_started_witness :
  zip_run SampleEnvs.env_no_zip (zip_command SampleEnvs.env_no_zip) =
    mkZip (SpawnError (FileNotFoundError "zip")) None /\
  generate_chunks SampleEnvs.env_no_zip Sample.world0 =
  (Raise (FileNotFoundError "zip"),
   mkWorld (Some ∅)
           (trace Sample.world0 ++ [EvZip (zip_command SampleEnvs.env_no_zip)])
           (log Sample.world0 ++ [LogGenerating])) /\
  exit_status (generate_chunks SampleEnvs.env_no_zip Sample.world0).1 = 1%Z.
Proof.
  split; [reflexivity|].
  exact (X15_archiver_not_started SampleEnvs.env_no_zip Sample.world0
           (FileNotFoundError "zip") None eq_refl).
Defined.

(** ** The listing of the chunk files, the frame of the splitter, cleanup *)

Section Listing.
Context `{PyLib} (env : Env).

(** X16. On an existing staging directory [get_chunk_files] changes
    nothing and returns, in ascending lexicographic order and without
    repetition, exactly the names of the directory that start with
    [_ziploy.zip.z]; the archive [_ziploy.zip] itself is never among
    them. *)
Theorem X16_chunk_files_listing (w : World) (files : gmap string bytes) :
  staging w = Some files ->
  exists l,
    get_chunk_files w = (Ok l, w) /\
    StronglySorted PyStr.le l /\
    NoDup l /\
    (forall name, name ∈ l <->
                  is_Some (files !! name) /\
                  PyStr.startswith "_ziploy.zip.z" name = true) /\
    zip_name ∉ l.
Proof.
  intros Hw. exists (chunk_files_of files).
  assert (Hin : forall name, name ∈ chunk_files_of files <->
                  is_Some (files !! name) /\
                  PyStr.startswith "_ziploy.zip.z" name = true).
  { intros name. unfold chunk_files_of.
    rewrite sorted_Permutation, list_elem_of_In, filter_In, <- list_elem_of_In.
    rewrite list_elem_of_fmap. split.
    - intros [([k v] & -> & Hkv%elem_of_map_to_list) Hp]. split; [by exists v|done].
    - intros [[v Hv] Hp]. split; [|done]. exists (name, v). split; [done|].
      by apply elem_of_map_to_list. }
  split; [by apply get_chunk_files_run|]. split; [apply sorted_Sorted|].
  split; [|split; [exact Hin|]].
  - unfold chunk_files_of. rewrite sorted_Permutation.
    eapply sublist_NoDup; [|apply filter_sublist]. apply NoDup_fst_map_to_list.
  - intros [_ Hp]%Hin. discriminate Hp.
Qed.

(** X17. Without a staging directory the coordinator fails at once
    with [FileNotFoundError], as [os.listdir] does: no request is sent,
    nothing is logged. *)
Theorem X17_missing_staging_directory (host id : string) (ssl : bool)
    (method : string) (params : option SshParams) (w : World) :
  staging w = None ->
  get_chunk_files w = (Raise (FileNotFoundError "__to_ziploy"), w) /\
  async_upload_chunks env host id ssl method params w =
  (Raise (FileNotFoundError "__to_ziploy"), w).
Proof.
  intros Hw.
  assert (Hl : get_chunk_files w = (Raise (FileNotFoundError "__to_ziploy"), w)).
  { unfold get_chunk_files, listdir, get_staging, mbind, M_bind, raise.
    by rewrite Hw. }
  split; [exact Hl|]. unfold async_upload_chunks.
  by erewrite bind_raise by exact Hl.
Qed.

Lemma chunk_entries_other idx cs name :
  (forall k, name <> chunk_filename k) ->
  (list_to_map (chunk_entries idx cs) : gmap string bytes) !! name = None.
Proof.
  intros Hname. apply not_elem_of_list_to_map_1.
  rewrite chunk_entries_keys, list_elem_of_fmap.
  intros (k & Hk & _). by apply (Hname k).
Qed.

(** X18. The splitting loop writes chunk files only: on an existing
    staging directory it returns normally, adds nothing to the trace,
    and leaves every file whose name is not a chunk name as it was. In
    particular the archive it reads is still there when the loop is
    over, so that its removal cannot fail. *)
Theorem X18_splitter_writes_chunk_files_only (size fuel : nat) (f : bytes)
    (idx : nat) (w : World) (files : gmap string bytes) :
  staging w = Some files ->
  let r := split_loop size fuel f idx w in
  r.1 = Ok tt /\
  trace r.2 = trace w /\
  (exists files',
      staging r.2 = Some files' /\
      forall name, (forall k, name <> chunk_filename k) ->
                   files' !! name = files !! name) /\
  (is_Some (files !! zip_name) ->
   ((split_loop size fuel f idx;; remove_file zip_name) w).1 = Ok tt).
Proof.
  intros Hw r. unfold r. rewrite (split_loop_run size fuel f idx w files Hw).
  cbn [fst snd staging trace].
  assert (Hother : forall name, (forall k, name <> chunk_filename k) ->
            (list_to_map (chunk_entries idx (chunks size fuel f)) ∪ files) !! name
            = files !! name).
  { intros name Hname. by rewrite lookup_union_r by by apply chunk_entries_other. }
  split; [done|]. split; [done|]. split; [by eexists|].
  intros [data Hdata].
  erewrite bind_ok by (by apply split_loop_run).
  erewrite remove_file_run; [done|reflexivity|].
  rewrite Hother; [exact Hdata|]. intros k Hk. by apply (chunk_filename_not_zip k).
Qed.

(** X23. [cleanup] never fails and adds nothing to the trace: it
    removes the staging directory and logs that, if the directory
    exists, and does nothing at all if it does not. Calling it a
    second time changes nothing. *)
Theorem X23_cleanup_idempotent (w : World) :
  cleanup w =
  (Ok tt, mkWorld None (trace w)
                  (log w ++ match staging w with
                            | Some _ => [LogCleanup "__to_ziploy"]
                            | None => []
                            end)) /\
  (staging w = None -> cleanup w = (Ok tt, w)) /\
  (cleanup;; cleanup) w = cleanup w.
Proof.
  assert (Hrun : cleanup w =
            (Ok tt, mkWorld None (trace w)
               (log w ++ match staging w with
                         | Some _ => [LogCleanup "__to_ziploy"]
                         | None => []
                         end))).
  { unfold cleanup, get_staging, set_staging, logging, mbind, M_bind.
    destruct w as [[files|] tr lg]; cbn; [done|]. by rewrite app_nil_r. }
  split; [exact Hrun|]. split.
  - intros Hw. rewrite Hrun, Hw, app_nil_r. destruct w; cbn in *. by subst.
  - erewrite bind_ok by exact Hrun. rewrite Hrun.
    unfold cleanup, get_staging, mbind, M_bind. reflexivity.
Qed.

End Listing.

Lemma X16_chunk_files_listing_witness :
  staging Sample.staged = Some Sample.two_chunks /\
  exists l,
    get_chunk_files Sample.staged = (Ok l, Sample.staged) /\
    StronglySorted PyStr.le l /\
    NoDup l /\
    (forall name, name ∈ l <->
                  is_Some (Sample.two_chunks !! name) /\
                  PyStr.startswith "_ziploy.zip.z" name = true) /\
    zip_name ∉ l.
Proof.
  split; [reflexivity|].
  exact (X16_chunk_files_listing Sample.staged Sample.two_chunks eq_refl).
Defined.

Lemma X17_missing_staging_directory_witness :
  staging Sample.world0 = None /\
  get_chunk_files Sample.world0 =
    (Raise (FileNotFoundError "__to_ziploy"), Sample.world0) /\
  async_upload_chunks Sample.env "https://example.org" "id-1" false "SSH"
    Sample.ssh_params Sample.world0 =
  (Raise (FileNotFoundError "__to_ziploy"), Sample.world0).
Proof.
  split; [reflexivity|].
  exact (X17_missing_staging_directory Sample.env "https://example.org" "id-1" false
           "SSH" Sample.ssh_params Sample.world0 eq_refl).
Defined.

Lemma X18_splitter_writes_chunk_files_only_witness :
  staging Sample.staged = Some Sample.two_chunks /\
  (split_loop 2 4 Sample.archive3 0 Sample.staged).1 = Ok tt /\
  trace (split_loop 2 4 Sample.archive3 0 Sample.staged).2 = trace Sample.staged.
Proof.
  split; [reflexivity|].
  destruct (X18_splitter_writes_chunk_files_only 2 4 Sample.archive3 0 Sample.staged
              Sample.two_chunks eq_refl) as (Hok & Htr & _).
  split; [exact Hok|exact Htr].
Defined.

Lemma X23_cleanup_idempotent_witness :
  staging Sample.world0 = None /\ cleanup Sample.world0 = (Ok tt, Sample.world0).
Proof.
  split; [reflexivity|].
  exact (proj1 (proj2 (X23_cleanup_idempotent Sample.world0)) eq_refl).
Defined.

(** ** More on the Transfer Coordinator *)

Section CoordinatorMore.
Context `{PyLib} (env : Env).

Lemma chunk_files_of_NoDup files : NoDup (chunk_files_of files).
Proof.
  unfold chunk_files_of. rewrite sorted_Permutation.
  eapply sublist_NoDup; [|apply filter_sublist]. apply NoDup_fst_map_to_list.
Qed.

Lemma coordinator_request_inv files host id ssl req :
  req ∈ coordinator_requests files host id ssl ->
  exists chunk data last_chunk,
    chunk ∈ chunk_files_of files /\ files !! chunk = Some data /\
    req = mkUpload (build_api_endpoint host)
            ([TextField "id" id] ++
             (if last_chunk : bool then [TextField "last" "true"] else []) ++
             [FileField "ziploy" data chunk "application/octet-stream"]) ssl.
Proof.
  intros (i & chunk & -> & Hi)%elem_of_lookup_imap.
  assert (Hchunk : chunk ∈ chunk_files_of files) by (by eapply list_elem_of_lookup_2).
  destruct (chunk_files_of_elem files chunk Hchunk) as [[data Hdata] _].
  exists chunk, data, (i =? length (chunk_files_of files) - 1)%nat.
  split; [done|]. split; [done|]. unfold chunk_request. by rewrite Hdata.
Qed.

(** Without ssh parameters the remote unpack step is skipped. *)
Lemma unpack_step_none method w : unpack_step env method None w = (Ok tt, w).
Proof. unfold unpack_step. by destruct (String.eqb _ _). Qed.

Lemma coordinator_run_none host id ssl method w files :
  staging w = Some files ->
  let pair := kept_pair (coordinator_responses env files host id ssl) in
  async_upload_chunks env host id ssl method None w =
  finalize_with env
    (mkFinalize (build_finalize_endpoint host) (mkBody id pair.1 pair.2 method) ssl)
    (mkWorld (Some files)
       (trace w ++ completion env (EvUpload <$> coordinator_requests files host id ssl))
       (log w ++ (response_log <$> coordinator_responses env files host id ssl))).
Proof.
  intros Hw pair.
  rewrite (async_upload_chunks_run env host id ssl method None w files Hw).
  rewrite coordinator_tasks_requests.
  erewrite bind_ok by apply unpack_step_none.
  by rewrite finalize_step_run.
Qed.



(** X22. With method SSH and ssh parameters that lack the command or
    the credentials, the coordinator fails with a [TypeError] after the
    uploads, right after logging that the method is SSH: no process is
    run and the finalize request is not sent. *)
Theorem X22_incomplete_ssh_parameters (host id : string) (ssl : bool)
    (method : string) (params : SshParams) (w : World) (files : gmap string bytes) :
  staging w = Some files ->
  py_upper method = "SSH" ->
  sp_command params = None \/ sp_config params = None ->
  let r := async_upload_chunks env host id ssl method (Some params) w in
  (exists text, r.1 = Raise (TypeError text)) /\
  uploads (new_events w r.2) ≡ₚ coordinator_requests files host id ssl /\
  ssh_calls (new_events w r.2) = [] /\
  finalizes (new_events w r.2) = [] /\
  last (log r.2) = Some LogMethodIsSsh.
Proof.
  intros Hw Hm Hmiss r. split; [|split; [by apply coordinator_uploads|]].
  all: unfold r; clear r.
  all: rewrite (async_upload_chunks_run env host id ssl method (Some params) w files Hw).
  all: rewrite coordinator_tasks_requests.
  all: set (ups := completion env (EvUpload <$> coordinator_requests files host id ssl)).
  all: assert (Hups : ups ≡ₚ EvUpload <$> coordinator_requests files host id ssl)
         by apply sched_perm.
  all: unfold unpack_step, ssh_unzip, mbind, M_bind, logging, raise.
  all: rewrite Hm, String.eqb_refl; cbn [staging trace log].
  all: destruct params as [[cmd|] [cfg|]]; cbn [sp_command sp_config] in *;
         [by destruct Hmiss|..]; cbn [fst snd log].
  all: try (by eexists).
  all: rewrite new_events_mk, (ssh_calls_uploads _ _ Hups), (finalizes_uploads _ _ Hups).
  all: by rewrite last_snoc.
Qed.

(** X24. Every upload request of a run of the coordinator goes to the
    update endpoint of the host, with the [verify_ssl] given and the
    deployment id in its [id] field, and sends one file of the staging
    directory whose name starts with [_ziploy.zip.z], under that name
    and with the content it has in the directory; no file is sent
    twice, and a file without the prefix is never sent. *)
Theorem X24_only_chunk_files_are_uploaded (host id : string) (ssl : bool)
    (method : string) (params : option SshParams) (w : World)
    (files : gmap string bytes) :
  staging w = Some files ->
  let reqs :=
    uploads (new_events w (async_upload_chunks env host id ssl method params w).2) in
  NoDup (omap upload_filename reqs) /\
  Forall (fun req =>
            up_endpoint req = build_api_endpoint host /\
            up_ssl req = ssl /\
            upload_field "id" req = Some id /\
            exists chunk data,
              upload_filename req = Some chunk /\
              upload_data req = Some data /\
              files !! chunk = Some data /\
              PyStr.startswith "_ziploy.zip.z" chunk = true) reqs.
Proof.
  intros Hw reqs.
  assert (Hreqs : reqs ≡ₚ coordinator_requests files host id ssl)
    by (by apply coordinator_uploads).
  split.
  - rewrite Hreqs, coordinator_requests_filenames. apply chunk_files_of_NoDup.
  - rewrite Hreqs. apply Forall_forall. intros req Hreq.
    apply coordinator_request_inv in Hreq
      as (chunk & data & last_chunk & Hchunk & Hdata & ->).
    apply chunk_files_of_elem in Hchunk as [_ Hprefix].
    split; [done|]. split; [done|]. split; [done|].
    exists chunk, data. by destruct last_chunk.
Qed.


End CoordinatorMore.

Lemma X22_incomplete_ssh_parameters_witness :
  staging Sample.staged = Some Sample.two_chunks /\
  py_upper "ssh" = "SSH" /\
  (sp_command (mkSshParams (Some Sample.unpack_cmd) None) = None \/
   sp_config (mkSshParams (Some Sample.unpack_cmd) None) = None) /\
  ssh_calls (new_events Sample.staged
               (async_upload_chunks Sample.env "https://example.org" "id-1" false "ssh"
                  (Some (mkSshParams (Some Sample.unpack_cmd) None)) Sample.staged).2)
  = [] /\
  finalizes (new_events Sample.staged
               (async_upload_chunks Sample.env "https://example.org" "id-1" false "ssh"
                  (Some (mkSshParams (Some Sample.unpack_cmd) None)) Sample.staged).2)
  = [].
Proof.
  assert (Hmiss : sp_command (mkSshParams (Some Sample.unpack_cmd) None) = None \/
                  sp_config (mkSshParams (Some Sample.unpack_cmd) None) = None)
    by (right; reflexivity).
  assert (Hm : py_upper "ssh" = "SSH") by reflexivity.
  split; [reflexivity|]. split; [exact Hm|]. split; [exact Hmiss|].
  destruct (X22_incomplete_ssh_parameters Sample.env "https://example.org" "id-1" false
              "ssh" (mkSshParams (Some Sample.unpack_cmd) None) Sample.staged
              Sample.two_chunks eq_refl Hm Hmiss) as (_ & _ & Hssh & Hfin & _).
  split; [exact Hssh|exact Hfin].
Defined.

Lemma X24_only_chunk_files_are_uploaded_witness :
  staging Sample.staged = Some Sample.two_chunks /\
  NoDup (omap upload_filename
           (uploads (new_events Sample.staged
                       (async_upload_chunks Sample.env "https://example.org" "id-1"
                          false "HTTP" None Sample.staged).2))).
Proof.
  split; [reflexivity|].
  exact (proj1 (X24_only_chunk_files_are_uploaded Sample.env "https://example.org"
                  "id-1" false "HTTP" None Sample.staged Sample.two_chunks eq_refl)).
Defined.

(** ** Whole runs, from the command line to the finalize request *)

Section MainMore.
Context `{PyLib} (env : Env).

Local Opaque chunk_size.

Lemma parse_ssh_config_result args w :
  (exists cfg, parse_ssh_config args w = (Ok cfg, w)) \/
  parse_ssh_config args w = (Exit 2, w).
Proof.
  unfold parse_ssh_config.
  destruct (py_strip <$> ssh_config args) as [|a [|b [|c [|d l]]]];
    try (by right);
    unfold mbind, M_bind, parser_error, sys_exit, mret, M_ret;
    repeat case_match; simplify_eq; eauto.
Qed.

(** The checks of the command line either reject it, with status 2 and
    nothing done, or log that they passed and hand over to the rest of
    [main]. *)
Lemma main_checks args w :
  ((main env args w).1 = Exit 2 /\ only_logged w (main env args w).2) \/
  main env args w =
  deploy env args (mkWorld (staging w) (trace w) (log w ++ [LogValidated])).
Proof.
  unfold main, deploy, validate_args.
  destruct (String.eqb _ "http" || String.eqb _ "https"); [|by left].
  erewrite bind_ok by reflexivity.
  destruct (String.eqb (py_upper (ziployMethod args)) "SSH"); [|by right].
  set (w1 := mkWorld _ _ _).
  destruct (parse_ssh_config_result args w1) as [[cfg Hp]|Hp].
  - right. erewrite bind_ok by (erewrite bind_ok by exact Hp; reflexivity).
    reflexivity.
  - left. erewrite bind_exit by (erewrite bind_exit by exact Hp; reflexivity).
    by split.
Qed.

(** [generate_chunks] returns normally only if the archiver returned 0
    and left an archive. *)
Lemma generate_chunks_ok_inv w :
  (generate_chunks env w).1 = Ok tt ->
  exists out err archive,
    zip_run env (zip_command env) = mkZip (Completed 0 out err) (Some archive).
Proof.
  unfold generate_chunks.
  do 3 (erewrite bind_ok by reflexivity).
  destruct (zip_run env (zip_command env)) as [[e|rc out err] [data|]] eqn:Hzip;
    try (by erewrite bind_raise by reflexivity).
  - destruct (Z.eqb_spec rc 0) as [->|Hrc]; [intros _; by eauto|].
    erewrite bind_exit; [done|].
    erewrite bind_ok by (by apply write_file_run).
    by erewrite bind_ok by reflexivity.
  - destruct (Z.eqb_spec rc 0) as [->|Hrc].
    + do 3 (erewrite bind_ok by reflexivity).
      erewrite bind_exit; [done|].
      unfold try_except. erewrite bind_raise by reflexivity.
      by erewrite bind_ok by reflexivity.
    + erewrite bind_exit; [done|].
      erewrite bind_ok by reflexivity.
      by erewrite bind_ok by reflexivity.
Qed.

(** The rest of [main] once [generate_chunks] has returned. *)
Lemma deploy_run args w w2 files :
  generate_chunks env w = (Ok tt, w2) ->
  staging w2 = Some files ->
  let host := ziployRemoteHost args in
  let pair := kept_pair (coordinator_responses env files host (ziployId args) false) in
  deploy env args w =
  (finalize_with env
     (mkFinalize (build_finalize_endpoint host)
        (mkBody (ziployId args) pair.1 pair.2 "HTTP") false);;
   cleanup;;
   logging LogTotalTime)
    (mkWorld (Some files)
       (trace w2 ++
        completion env
          (EvUpload <$> coordinator_requests files host (ziployId args) false))
       (log w2 ++
        (response_log <$>
           coordinator_responses env files host (ziployId args) false))).
Proof.
  intros Hg Hfiles host pair. unfold deploy.
  erewrite bind_ok by exact Hg.
  unfold mbind at 1, M_bind at 1.
  rewrite (coordinator_run_none env host (ziployId args) false "HTTP" w2 files Hfiles).
  reflexivity.
Qed.

(** The rest of [main] when the archiver succeeds. *)
Lemma deploy_ok_run args w out err archive :
  zip_run env (zip_command env) = mkZip (Completed 0 out err) (Some archive) ->
  let files := chunk_dir (split archive) in
  let host := ziployRemoteHost args in
  let pair := kept_pair (coordinator_responses env files host (ziployId args) false) in
  deploy env args w =
  (finalize_with env
     (mkFinalize (build_finalize_endpoint host)
        (mkBody (ziployId args) pair.1 pair.2 "HTTP") false);;
   cleanup;;
   logging LogTotalTime)
    (mkWorld (Some files)
       ((trace w ++ [EvZip (zip_command env)]) ++
        completion env
          (EvUpload <$> coordinator_requests files host (ziployId args) false))
       ((log w ++ [LogGenerating; LogPackageCreated; LogSplitting] ++
         created_log 0 (split archive) ++
         [LogDeletedZip (path_join output_folder zip_name);
          LogSplitInto (length (split archive))]) ++
        (response_log <$>
           coordinator_responses env files host (ziployId args) false))).
Proof.
  intros Hzip files host pair.
  by rewrite (deploy_run args w _ files (generate_chunks_ok env w out err archive Hzip)
                eq_refl).
Qed.


(** The trace of a run after [finalize_with]: the cleanup and the last
    record leave it alone. *)
Lemma deploy_tail_trace req w :
  trace ((finalize_with env req;; cleanup;; logging LogTotalTime) w).2 =
  (trace w ++ [EvFinalize req])%list.
Proof.
  unfold mbind, M_bind, finalize_with.
  destruct (finalize_outcome env req).1 as [[]|c|e]; try done.
  set (w1 := mkWorld _ _ _).
  by destruct (cleanup_run w1) as [lg ->].
Qed.


Lemma ssh_calls_zip_uploads argv ups reqs fin :
  ups ≡ₚ EvUpload <$> reqs ->
  fin = [] \/ (exists req, fin = [EvFinalize req]) ->
  ssh_calls (EvZip argv :: ups ++ fin) = [].
Proof.
  intros Hups Hfin. change (EvZip argv :: ups ++ fin)%list
    with ([EvZip argv] ++ ups ++ fin)%list.
  rewrite !ssh_calls_app, (ssh_calls_uploads _ _ Hups).
  by destruct Hfin as [-> | [req ->]].
Qed.

(** X21. The phases of a run started from [main], whatever the command
    line and the environment: either nothing is done (the command line
    is rejected), or the archiver is run once, first; then come the
    uploads, each to the update endpoint of the host and under the
    deployment id; then, at most, one finalize request, to the finalize
    endpoint, with the id and with method HTTP, also when the command
    line says SSH. No ssh process is ever run. *)
Theorem X21_phases_of_a_run (args : Args) (w : World) :
  let evs := new_events w (main env args w).2 in
  ssh_calls evs = [] /\
  (evs = [] \/
   exists ups fin,
     evs = (EvZip (zip_command env) :: ups ++ fin)%list /\
     Forall (is_upload_to (build_api_endpoint (ziployRemoteHost args))
                          (ziployId args)) ups /\
     (fin = [] \/
      exists package destination,
        fin = [EvFinalize
                 (mkFinalize (build_finalize_endpoint (ziployRemoteHost args))
                    (mkBody (ziployId args) package destination "HTTP") false)])).
Proof.
  intros evs. unfold evs. clear evs.
  destruct (main_checks args w) as [[_ [_ Htr]]|Hmain].
  { rewrite (new_events_app w _ []) by (by rewrite app_nil_r). split; [done|by left]. }
  rewrite Hmain. set (w1 := mkWorld _ _ _).
  assert (Hnew : forall w', new_events w w' = new_events w1 w') by done.
  rewrite !Hnew. clear Hnew.
  destruct (generate_chunks_shape env w1) as [[files Hfiles] Hgen].
  destruct (generate_chunks env w1) as [[[]|c|e] w2] eqn:Hg; cbn [fst snd] in *.
  - pose (host := ziployRemoteHost args).
    pose (reqs := coordinator_requests files host (ziployId args) false).
    pose (pair := kept_pair (coordinator_responses env files host (ziployId args) false)).
    assert (Hev : new_events w1 (deploy env args w1).2 =
                  EvZip (zip_command env) :: completion env (EvUpload <$> reqs) ++
                  [EvFinalize (mkFinalize (build_finalize_endpoint host)
                                 (mkBody (ziployId args) pair.1 pair.2 "HTTP") false)]).
    { apply new_events_app.
      rewrite (deploy_run args w1 w2 files Hg Hfiles), deploy_tail_trace.
      cbn [trace]. rewrite Hgen. by rewrite <- !app_assoc. }
    rewrite Hev. split.
    + eapply ssh_calls_zip_uploads; [apply sched_perm|right; by eexists].
    + right. eexists _, _. split; [reflexivity|]. split; [|right; by eexists _, _].
      rewrite (sched_perm (completion env)). apply Forall_fmap, Forall_forall.
      intros req Hreq. exists req. split; [done|].
      apply coordinator_request_inv in Hreq
        as (chunk & data & last_chunk & _ & _ & ->).
      by destruct last_chunk.
  - assert (Hev : new_events w1 (deploy env args w1).2 = [EvZip (zip_command env)]).
    { apply new_events_app. unfold deploy. by erewrite bind_exit by exact Hg. }
    rewrite Hev. split; [done|]. right. exists [], []. split; [done|].
    split; [constructor|by left].
  - assert (Hev : new_events w1 (deploy env args w1).2 = [EvZip (zip_command env)]).
    { apply new_events_app. unfold deploy. by erewrite bind_raise by exact Hg. }
    rewrite Hev. split; [done|]. right. exists [], []. split; [done|].
    split; [constructor|by left].
Qed.

(** X25. A run that ends normally has run the archiver with status 0
    and has sent exactly one finalize request, which the server
    answered with a status below 400 and a JSON body, logged as the
    start of the deployment. (It says nothing of the uploads: their
    failures are logged and do not stop the run.) *)
Theorem X25_normal_end_means_finalize_accepted (args : Args) (w : World) :
  (main env args w).1 = Ok tt ->
  (exists out err archive,
      zip_run env (zip_command env) = mkZip (Completed 0 out err) (Some archive)) /\
  (exists req status final_response,
      finalizes (new_events w (main env args w).2) = [req] /\
      http_finalize env req = Response status (inr final_response) /\
      (status < 400)%Z /\
      LogDeployInitiated final_response ∈ new_log w (main env args w).2) /\
  last (log (main env args w).2) = Some LogTotalTime.
Proof.
  intros Hok.
  destruct (main_checks args w) as [[Hexit _]|Hmain]; [congruence|].
  rewrite Hmain in *. set (w1 := mkWorld _ _ _) in *.
  assert (Hzip : exists out err archive,
             zip_run env (zip_command env) = mkZip (Completed 0 out err) (Some archive)).
  { apply (generate_chunks_ok_inv w1). revert Hok. unfold deploy, mbind, M_bind.
    by destruct (generate_chunks env w1) as [[[]|c|e] w2]. }
  split; [exact Hzip|]. destruct Hzip as (out & err & archive & Hzip).
  revert Hok. rewrite (deploy_ok_run args w1 out err archive Hzip).
  set (req := mkFinalize _ _ _). set (w2 := mkWorld _ _ _).
  unfold mbind, M_bind, finalize_with, finalize_outcome.
  destruct (http_finalize env req) as [e|status [e|final_response]] eqn:Hfin;
    [done|by destruct (Z.leb_spec 400 status)|].
  destruct (Z.leb_spec 400 status) as [Hge|Hlt]; [done|].
  cbn [fst snd]. set (w3 := mkWorld _ _ _).
  destruct (cleanup_run w3) as [lg ->]. unfold logging. cbn [fst snd trace log].
  intros _. split; [|by rewrite last_snoc].
  exists req, status, final_response. split; [|split; [done|split; [done|]]].
  - unfold new_events, w3, w2, w1. cbn [trace].
    rewrite <- !app_assoc, drop_app_length, !finalizes_app.
    by rewrite (finalizes_uploads _ _ (sched_perm (completion env) _)).
  - unfold new_log, w3, w2, w1. cbn [log].
    rewrite <- !app_assoc, drop_app_length.
    rewrite !elem_of_app, !elem_of_cons. naive_solver.
Qed.

End MainMore.


Lemma X25_normal_end_means_finalize_accepted_witness :
  (main Sample.env Sample.args_ssh Sample.world0).1 = Ok tt /\
  last (log (main Sample.env Sample.args_ssh Sample.world0).2) = Some LogTotalTime.
Proof.
  assert (Hok : (main Sample.env Sample.args_ssh Sample.world0).1 = Ok tt)
    by (vm_compute; reflexivity).
  split; [exact Hok|].
  exact (proj2 (proj2 (X25_normal_end_means_finalize_accepted Sample.env
                         Sample.args_ssh Sample.world0 Hok))).
Defined.
